(** * Fake-News-Detector: a shallow embedding of the claim-analysis pipeline

    The development follows the three Python modules that make up the
    pipeline:

    - [src/utils.py]    : [validate_input]
    - [src/analyzer.py] : [NewsAnalyzer] ([analyze_claim], [_parse_analysis],
                          [_validate_analysis], ...)
    - [src/scraper.py]  : [GoogleSearchScraper] ([search] and its sources)

    Modelling choices:

    - Python values are the inductive type [value]; a [dict] with string
      keys is a [gmap string value]; a [float] is a binary64 float.
    - A [str] is a [string]; each [ascii] stands for the code point of the
      same number, so the model is exact for texts whose code points are
      below 256.
    - Code that may raise lives in the [outcome] monad.  The exceptions
      modelled are the subclasses of [Exception]; printing to the standard
      output is not modelled.
    - Everything the program obtains from outside the repository is a
      parameter of the functions that use it: the chat-completion client,
      [json.loads], the HTTP client, the HTML parser and the Google API
      client. *)

From Stdlib Require Import ZArith String Ascii List Bool Lia DecimalString.
From Stdlib Require Import Floats.PrimFloat.
From stdpp Require Import base option gmap strings list fin_maps.

Set Warnings "-register-all,-inexact-float".
Set Default Proof Using "Type".

(* ===================================================================== *)
(** * Python strings                                                      *)
(* ===================================================================== *)

Module PyStr.

(** The double-quote and newline characters, as one-character strings. *)
Definition dq : string := String "034"%char "".
Definition nl : string := String "010"%char "".

(** [str.isspace] on one character, for code points below 256:
    TAB..CR, FS..US, SPACE, NEL and NBSP. *)
Definition isspace (c : ascii) : bool :=
  let n := nat_of_ascii c in
  ((9 <=? n) && (n <=? 13)) || ((28 <=? n) && (n <=? 32))
  || (n =? 133) || (n =? 160).

(** [c.isdigit()] restricted to what [int()] accepts below 256. *)
Definition digit_val (c : ascii) : option Z :=
  let n := nat_of_ascii c in
  if (48 <=? n) && (n <=? 57) then Some (Z.of_nat (n - 48)) else None.

(** The character class [[a-zA-Z0-9]] of [re]. *)
Definition is_alnum (c : ascii) : bool :=
  let n := nat_of_ascii c in
  ((97 <=? n) && (n <=? 122)) || ((65 <=? n) && (n <=? 90))
  || ((48 <=? n) && (n <=? 57)).

Fixpoint existsb (p : ascii → bool) (s : string) : bool :=
  match s with
  | EmptyString => false
  | String c s' => p c || existsb p s'
  end.

(** [s.lstrip()], [s.rstrip()], [s.strip()]. *)
Fixpoint lstrip (s : string) : string :=
  match s with
  | EmptyString => EmptyString
  | String c s' => if isspace c then lstrip s' else s
  end.

Fixpoint rstrip (s : string) : string :=
  match s with
  | EmptyString => EmptyString
  | String c s' =>
      match rstrip s' with
      | EmptyString => if isspace c then EmptyString else String c EmptyString
      | r => String c r
      end
  end.

Definition strip (s : string) : string := rstrip (lstrip s).

Fixpoint drop (n : nat) (s : string) : string :=
  match n, s with
  | O, _ => s
  | S _, EmptyString => EmptyString
  | S n', String _ s' => drop n' s'
  end.

Fixpoint take (n : nat) (s : string) : string :=
  match n, s with
  | O, _ => EmptyString
  | S _, EmptyString => EmptyString
  | S n', String c s' => String c (take n' s')
  end.

(** Index normalisation shared by slicing and by the [start] argument of
    [find]: a negative index counts from the end, and the result is
    clipped to [0 .. len]. *)
Definition norm_index (len i : Z) : Z :=
  if (i <? 0)%Z then Z.max 0 (i + len) else Z.min i len.

(** [s[a:b]]. *)
Definition slice (s : string) (a b : Z) : string :=
  let len := Z.of_nat (String.length s) in
  let a' := norm_index len a in
  let b' := norm_index len b in
  take (Z.to_nat (b' - a')) (drop (Z.to_nat a') s).

(** Lowest index at which [sub] occurs in [s]. *)
Fixpoint find_first (sub s : string) : option nat :=
  if String.prefix sub s then Some 0
  else match s with
       | EmptyString => None
       | String _ s' => S <$> find_first sub s'
       end.

(** Highest index at which [sub] occurs in [s]. *)
Fixpoint find_last (sub s : string) : option nat :=
  match s with
  | EmptyString => if String.prefix sub s then Some 0 else None
  | String _ s' =>
      match find_last sub s' with
      | Some i => Some (S i)
      | None => if String.prefix sub s then Some 0 else None
      end
  end.

(** [sub in s]. *)
Definition contains (sub s : string) : bool :=
  bool_decide (is_Some (find_first sub s)).

(** [s.find(sub, start)]: [-1] when [sub] does not occur at or after
    [start]. *)
Definition find (s sub : string) (start : Z) : Z :=
  let len := Z.of_nat (String.length s) in
  if (len <? start)%Z then (-1)%Z
  else
    let st := Z.to_nat (norm_index len start) in
    match find_first sub (drop st s) with
    | Some i => Z.of_nat (st + i)
    | None => (-1)%Z
    end.

(** [s.rfind(sub)]. *)
Definition rfind (s sub : string) : Z :=
  match find_last sub s with
  | Some i => Z.of_nat i
  | None => (-1)%Z
  end.

(** [sep.join(parts)]. *)
Fixpoint join (sep : string) (parts : list string) : string :=
  match parts with
  | [] => ""
  | [p] => p
  | p :: rest => p +:+ sep +:+ join sep rest
  end.

(** Decimal rendering of a natural number, as [str(i)] or [f"{i}"]. *)
Definition of_nat (n : nat) : string :=
  NilEmpty.string_of_uint (Nat.to_uint n).

(** Decimal rendering of a non-negative integer. *)
Definition of_Z (z : Z) : string :=
  NilEmpty.string_of_uint (N.to_uint (Z.to_N z)).

(** The characters that [int()] skips around a literal: TAB..CR and
    SPACE, and NEL and NBSP, which it first turns into spaces.  The
    separators FS..US are whitespace for [strip] but not for [int()]. *)
Definition int_space (c : ascii) : bool :=
  let n := nat_of_ascii c in
  ((9 <=? n) && (n <=? 13)) || (n =? 32) || (n =? 133) || (n =? 160).

Fixpoint skip_int_space (s : string) : string :=
  match s with
  | EmptyString => EmptyString
  | String c s' => if int_space c then skip_int_space s' else s
  end.

Fixpoint all_int_space (s : string) : bool :=
  match s with
  | EmptyString => true
  | String c s' => int_space c && all_int_space s'
  end.

(** The scan of the digits of a literal: the longest run of digits and
    underscores, with its value [acc], its number of digits and the text
    that follows.  Two underscores in a row, or an underscore at the end of
    the run, are errors ([None]).  [prev_underscore] tells whether the
    previous character was an underscore. *)
Fixpoint int_scan (s : string) (prev_underscore : bool) (acc digits : Z)
    : option (Z * Z * string) :=
  match s with
  | EmptyString => if prev_underscore then None else Some (acc, digits, s)
  | String c s' =>
      match digit_val c with
      | Some d => int_scan s' false (10 * acc + d)%Z (digits + 1)%Z
      | None =>
          if nat_of_ascii c =? 95 then
            if prev_underscore then None else int_scan s' true acc digits
          else if prev_underscore then None
          else Some (acc, digits, s)
      end
  end.

(** [sys.get_int_max_str_digits()], at its default. *)
Definition int_max_str_digits : Z := 4300.

(** The two ways in which [int(s)] raises [ValueError]. *)
Inductive int_error : Type :=
| InvalidLiteral
| ExceedsLimit (digits : Z).

(** The optional sign of a literal: whether it is negative, and the text
    after the sign. *)
Definition int_sign (t : string) : bool * string :=
  match t with
  | String c u =>
      if nat_of_ascii c =? 43 then (false, u)
      else if nat_of_ascii c =? 45 then (true, u)
      else (false, t)
  | EmptyString => (false, t)
  end.

(** The literal after its sign: no leading underscore, the scan of the
    digits, the cap on their number, at least one digit, and nothing but
    whitespace after them. *)
Definition int_magnitude (u : string) : Z + int_error :=
  if (match u with
      | String c _ => nat_of_ascii c =? 95
      | EmptyString => false
      end)
  then inr InvalidLiteral
  else
    match int_scan u false 0 0 with
    | None => inr InvalidLiteral
    | Some (acc, digits, rest) =>
        if (int_max_str_digits <? digits)%Z then inr (ExceedsLimit digits)
        else if (digits =? 0)%Z then inr InvalidLiteral
        else if all_int_space rest then inl acc
        else inr InvalidLiteral
    end.

(** [int(s)] for a [str] argument, in base 10: leading whitespace, one
    optional sign, then the magnitude. *)
Definition parse_int (s : string) : Z + int_error :=
  let '(negative, u) := int_sign (skip_int_space s) in
  match int_magnitude u with
  | inl m => inl (if negative then (- m)%Z else m)
  | inr e => inr e
  end.

(** [int(s)] as an option: [None] stands for [ValueError]. *)
Definition int (s : string) : option Z :=
  match parse_int s with
  | inl z => Some z
  | inr _ => None
  end.

(** [c.isprintable()] for code points below 256: the controls, NBSP and
    the soft hyphen are not printable. *)
Definition isprintable (c : ascii) : bool :=
  let n := nat_of_ascii c in
  ((32 <=? n) && (n <=? 126)) || ((161 <=? n) && negb (n =? 173)).

Definition hex_digit (n : nat) : ascii :=
  match String.get n "0123456789abcdef" with
  | Some c => c
  | None => "0"%char
  end.

(** One character of [repr(s)], inside the quotes [quote]. *)
Definition repr_char (quote c : ascii) : string :=
  let n := nat_of_ascii c in
  let backslash := "092"%char in
  if Ascii.eqb c quote || (n =? 92) then String backslash (String c "")
  else if n =? 9 then String backslash "t"
  else if n =? 10 then String backslash "n"
  else if n =? 13 then String backslash "r"
  else if isprintable c then String c ""
  else String backslash
         (String "x" (String (hex_digit (n / 16))
                        (String (hex_digit (n mod 16)) ""))).

Fixpoint repr_body (quote : ascii) (s : string) : string :=
  match s with
  | EmptyString => EmptyString
  | String c s' => repr_char quote c +:+ repr_body quote s'
  end.

(** [repr(s)]: double quotes when the text has a single quote and no
    double quote, single quotes otherwise. *)
Definition repr (s : string) : string :=
  let quote :=
    if existsb (Ascii.eqb "039"%char) s
       && negb (existsb (Ascii.eqb "034"%char) s)
    then "034"%char else "039"%char in
  String quote (repr_body quote s +:+ String quote "").

End PyStr.

(* ===================================================================== *)
(** * Python values, exceptions and the outcome monad                     *)
(* ===================================================================== *)

(** What [json.loads] can produce, and what the analyzer returns. *)
Inductive value : Type :=
| VNone
| VBool (b : bool)
| VInt (z : Z)
| VFloat (f : float)
| VStr (s : string)
| VList (l : list value)
| VDict (d : gmap string value).

(** The exception classes the pipeline can meet.  All of them derive from
    [Exception]; [JSONDecodeError] derives from [ValueError]. *)
Inductive exn_class : Type :=
| JSONDecodeError
| ValueError
| TypeError
| AttributeError
| KeyError
| IndexError
| UnboundLocalError
| OtherException (name : string).

Record exn : Type := mk_exn { exn_cls : exn_class; exn_msg : string }.

(** [isinstance(e, json.JSONDecodeError)]. *)
Definition is_JSONDecodeError (e : exn) : bool :=
  match exn_cls e with JSONDecodeError => true | _ => false end.

(** [isinstance(e, Exception)]: every modelled class is one. *)
Definition is_Exception (e : exn) : bool := true.

Inductive outcome (A : Type) : Type :=
| Return (a : A)
| Raise (e : exn).
Arguments Return {A} a.
Arguments Raise {A} e.

#[global] Instance outcome_ret : MRet outcome := @Return.
#[global] Instance outcome_bind : MBind outcome :=
  λ A B f m, match m with Return a => f a | Raise e => Raise e end.

(** [try: body  except C as e: handler(e)]. *)
Definition try_except {A} (body : outcome A) (catches : exn → bool)
    (handler : exn → outcome A) : outcome A :=
  match body with
  | Return a => Return a
  | Raise e => if catches e then handler e else Raise e
  end.

(* ===================================================================== *)
(** * src/utils.py                                                        *)
(* ===================================================================== *)

Module Utils.

(** [re.search(r'[a-zA-Z0-9]', claim)] as a truth value. *)
Definition re_search_alnum (claim : string) : bool :=
  PyStr.existsb PyStr.is_alnum claim.

Definition validate_input (claim : string) : bool :=
  if bool_decide (claim = "")
     || (Z.of_nat (String.length (PyStr.strip claim)) <? 10)%Z
  then false
  else if negb (re_search_alnum claim) then false
  else true.

End Utils.


(* ===================================================================== *)
(** * Operations on Python objects used by the analyzer                   *)
(* ===================================================================== *)

Module PyObj.

(** [type(v).__name__]. *)
Definition type_name (v : value) : string :=
  match v with
  | VNone => "NoneType"
  | VBool _ => "bool"
  | VInt _ => "int"
  | VFloat _ => "float"
  | VStr _ => "str"
  | VList _ => "list"
  | VDict _ => "dict"
  end.

Definition type_error (msg : string) : exn := mk_exn TypeError msg.

(** [key in container] for a [str] key: membership in a dict, equality
    with an element of a list, substring of a string; other types are not
    containers. *)
Definition contains (container : value) (key : string) : outcome bool :=
  match container with
  | VDict d => Return (bool_decide (is_Some (d !! key)))
  | VList l =>
      Return (List.existsb
                (λ x, match x with
                      | VStr s => bool_decide (s = key)
                      | _ => false
                      end) l)
  | VStr s => Return (PyStr.contains key s)
  | _ =>
      Raise (type_error ("argument of type '" +:+ type_name container
                         +:+ "' is not iterable"))
  end.

(** [container[key] = v] for a [str] key. *)
Definition setitem (container : value) (key : string) (v : value)
    : outcome value :=
  match container with
  | VDict d => Return (VDict (<[key := v]> d))
  | VList _ =>
      Raise (type_error "list indices must be integers or slices, not str")
  | _ =>
      Raise (type_error ("'" +:+ type_name container
                         +:+ "' object does not support item assignment"))
  end.

(** [container.get(key, dflt)]: only a dict has the method. *)
Definition get (container : value) (key : string) (dflt : value)
    : outcome value :=
  match container with
  | VDict d => Return (default dflt (d !! key))
  | _ =>
      Raise (mk_exn AttributeError
               ("'" +:+ type_name container
                +:+ "' object has no attribute 'get'"))
  end.

Definition not_ordered (v : value) : exn :=
  type_error ("'<' not supported between instances of '"
              +:+ type_name v +:+ "' and 'int'").

(** [min(10, score)]: the builtin keeps [10] unless [score < 10]. *)
Definition min_10 (score : value) : outcome value :=
  match score with
  | VInt z => Return (if (z <? 10)%Z then VInt z else VInt 10)
  | VBool b => Return (VBool b)
  | VFloat f => Return (if PrimFloat.ltb f 10%float then VFloat f else VInt 10)
  | _ => Raise (not_ordered score)
  end.

(** [max(0, x)]: the builtin keeps [0] unless [x > 0]. *)
Definition max_0 (x : value) : outcome value :=
  match x with
  | VInt z => Return (if (0 <? z)%Z then VInt z else VInt 0)
  | VBool b => Return (if b then VBool true else VInt 0)
  | VFloat f => Return (if PrimFloat.ltb 0%float f then VFloat f else VInt 0)
  | _ =>
      Raise (type_error ("'>' not supported between instances of '"
                         +:+ type_name x +:+ "' and 'int'"))
  end.

End PyObj.

(* ===================================================================== *)
(** * src/analyzer.py                                                     *)
(* ===================================================================== *)

(** An evidence record: a dict from field names to a [str] or [None]
    ([None] arises from [item.get(...)] in the custom-search source). *)
Abbreviation evidence := (gmap string (option string)).

Module Analyzer.

Import PyStr.

(** [f"{v}"] for a [str] or [None]. *)
Definition fmt (v : option string) : string := default "None" v.

(** [result[key]]. *)
Definition getitem (result : evidence) (key : string)
    : outcome (option string) :=
  match result !! key with
  | Some v => Return v
  | None => Raise (mk_exn KeyError ("'" +:+ key +:+ "'"))
  end.

(** The loop of [_prepare_context]; [i] is the counter of
    [enumerate(search_results, 1)]. *)
Fixpoint _prepare_context_loop (i : nat) (search_results : list evidence)
    (context_parts : list string) : outcome (list string) :=
  match search_results with
  | [] => Return context_parts
  | result :: rest =>
      title ← getitem result "title";
      link ← getitem result "link";
      snippet ← getitem result "snippet";
      _prepare_context_loop (S i) rest
        (context_parts ++
           ["Source " +:+ of_nat i +:+ ": " +:+ fmt title +:+ nl
            +:+ "URL: " +:+ fmt link +:+ nl
            +:+ "Summary: " +:+ fmt snippet +:+ nl])
  end.

Definition _prepare_context (search_results : list evidence)
    : outcome string :=
  context_parts ← _prepare_context_loop 1 search_results [];
  Return (join nl context_parts).

Definition _get_system_prompt : string :=
  join (nl +:+ "        ")
    ["You are a fact-checking assistant that analyzes news claims for credibility.";
     "Your task is to evaluate claims based on available evidence and provide a structured analysis.";
     "Be objective, thorough, and base your assessment on the information provided.";
     "Always respond with a JSON object containing the analysis."].

Definition q (s : string) : string := dq +:+ s +:+ dq.

Definition _create_analysis_prompt (claim context : string) : string :=
  join nl
    ["Analyze the following claim for credibility based on the search results provided.";
     "";
     "CLAIM: " +:+ claim;
     "";
     "SEARCH RESULTS:";
     context;
     "";
     "Please provide your analysis as a JSON object with the following structure:";
     "{";
     "    " +:+ q "credibility_score" +:+ ": <integer from 0-10>,";
     "    " +:+ q "verdict" +:+ ": "
       +:+ q "<Likely True/Likely False/Uncertain/Mixed Evidence>" +:+ ",";
     "    " +:+ q "confidence" +:+ ": " +:+ q "<High/Medium/Low>" +:+ ",";
     "    " +:+ q "explanation" +:+ ": "
       +:+ q "<detailed explanation of your analysis>" +:+ ",";
     "    " +:+ q "key_findings" +:+ ": [" +:+ q "<finding 1>" +:+ ", "
       +:+ q "<finding 2>" +:+ ", ...],";
     "    " +:+ q "red_flags" +:+ ": [" +:+ q "<red flag 1>" +:+ ", "
       +:+ q "<red flag 2>" +:+ ", ...],";
     "    " +:+ q "supporting_evidence" +:+ ": [" +:+ q "<evidence 1>" +:+ ", "
       +:+ q "<evidence 2>" +:+ ", ...]";
     "}";
     "";
     "Consider:";
     "- Consistency across sources";
     "- Source credibility";
     "- Presence of factual information vs opinion";
     "- Any obvious signs of misinformation";
     "- Date and relevance of information"].

(** The substring of the response that [_parse_analysis] hands to
    [json.loads]. *)
Definition extract_json_str (analysis_text : string) : string :=
  if contains "```json" analysis_text then
    let json_start := (find analysis_text "```json" 0 + 7)%Z in
    let json_end := find analysis_text "```" json_start in
    strip (slice analysis_text json_start json_end)
  else if contains "{" analysis_text && contains "}" analysis_text then
    let json_start := find analysis_text "{" 0 in
    let json_end := (rfind analysis_text "}" + 1)%Z in
    slice analysis_text json_start json_end
  else analysis_text.

Definition defaults : list (string * value) :=
  [("credibility_score", VInt 5);
   ("verdict", VStr "Uncertain");
   ("confidence", VStr "Medium");
   ("explanation", VStr "Analysis could not be completed");
   ("key_findings", VList []);
   ("red_flags", VList []);
   ("supporting_evidence", VList [])].

(** [for key, default_value in defaults.items():
       if key not in analysis: analysis[key] = default_value] *)
Fixpoint merge_defaults (items : list (string * value)) (analysis : value)
    : outcome value :=
  match items with
  | [] => Return analysis
  | (key, default_value) :: rest =>
      PyObj.contains analysis key ≫= λ present : bool,
      analysis' ← (if present then Return analysis
                   else PyObj.setitem analysis key default_value);
      merge_defaults rest analysis'
  end.

(** [if isinstance(score, str): try: score = int(score)
                                except ValueError: score = 5] *)
Definition coerce_score (score : value) : value :=
  match score with
  | VStr s => match PyStr.int s with
              | Some z => VInt z
              | None => VInt 5
              end
  | _ => score
  end.

Definition _validate_analysis (analysis : value) : outcome value :=
  analysis ← merge_defaults defaults analysis;
  score ← PyObj.get analysis "credibility_score" (VInt 5);
  let score := coerce_score score in
  lo ← PyObj.min_10 score;
  clamped ← PyObj.max_0 lo;
  PyObj.setitem analysis "credibility_score" clamped.

(** The record returned when the response is not JSON. *)
Definition non_json_record (analysis_text : string) : gmap string value :=
  {[ "credibility_score" := VInt 5;
     "verdict" := VStr "Uncertain";
     "explanation" := VStr analysis_text;
     "confidence" := VStr "Medium";
     "key_findings" := VList [];
     "red_flags" := VList [];
     "supporting_evidence" := VList [] ]}.

(** The record returned by the handler of [analyze_claim]. *)
Definition failure_record (e : exn) : gmap string value :=
  {[ "credibility_score" := VInt 0;
     "verdict" := VStr "Analysis Failed";
     "explanation" := VStr ("Could not complete analysis: " +:+ exn_msg e);
     "confidence" := VStr "Low" ]}.

Section NewsAnalyzer.

(** [json.loads]. *)
Variable json_loads : string → outcome value.

(** [self.client.chat.completions.create(model, messages, max_tokens,
    temperature)], observed through the [message.content] of each
    element of [response.choices] ([None] when the message has no
    content). *)
Variable chat_completions_create :
  string → list (string * string) → Z → float
  → outcome (list (option string)).

(** [self.model]. *)
Variable model : string.

Definition _parse_analysis (analysis_text : string) : outcome value :=
  try_except
    (let json_str := extract_json_str analysis_text in
     analysis ← json_loads json_str;
     _validate_analysis analysis)
    is_JSONDecodeError
    (λ _, Return (VDict (non_json_record analysis_text))).

(** [response.choices[0].message.content] *)
Definition first_content (choices : list (option string))
    : outcome (option string) :=
  match choices with
  | c :: _ => Return c
  | [] => Raise (mk_exn IndexError "list index out of range")
  end.

Definition analyze_claim (claim : string) (search_results : list evidence)
    : outcome value :=
  try_except
    (context ← _prepare_context search_results;
     let prompt := _create_analysis_prompt claim context in
     response ← chat_completions_create model
                  [("system", _get_system_prompt); ("user", prompt)]
                  1000 0.8%float;
     analysis_text ← first_content response;
     match analysis_text with
     | Some text => _parse_analysis text
     | None =>
         (* ["```json" in None] *)
         Raise (PyObj.type_error
                  "argument of type 'NoneType' is not iterable")
     end)
    is_Exception
    (λ e, Return (VDict (failure_record e))).

End NewsAnalyzer.

End Analyzer.

(* ===================================================================== *)
(** * src/scraper.py                                                      *)
(* ===================================================================== *)

(** What the scraper reads from an HTML element: [get_text(strip=True)]
    and the [href] attribute (absent for [None]). *)
Record element : Type := mk_element {
  get_text : string;
  href : option string
}.

(** What the scraper asks of a result block: [select_one(selector)] and
    [find('a', class_=cls)]. *)
Record node : Type := mk_node {
  select_one : string → option element;
  find_a : string → option element
}.

Record http_response : Type := mk_response {
  status_code : Z;
  text : string
}.

Module Scraper.

Import PyStr.

(** Truth value of a [str] or [None]. *)
Definition truthy (s : option string) : bool :=
  match s with
  | Some s => negb (bool_decide (s = ""))
  | None => false
  end.

(** Truth value of a list. *)
Definition nonempty {A} (l : list A) : bool :=
  match l with [] => false | _ => true end.

(** Reading a local variable; [None] is a variable not bound yet. *)
Definition read_local {A} (name : string) (v : option A) : outcome A :=
  match v with
  | Some a => Return a
  | None =>
      Raise (mk_exn UnboundLocalError
               ("cannot access local variable '" +:+ name
                +:+ "' where it is not associated with a value"))
  end.

Definition record (title link snippet : option string) : evidence :=
  {[ "title" := title; "link" := link; "snippet" := snippet ]}.

Definition _get_fallback_results (query : string) : list evidence :=
  [ record (Some ("Search result 1 for: " +:+ query))
           (Some "https://example.com/1")
           (Some ("This would contain information about " +:+ query
                  +:+ ". The actual search service is currently unavailable, but the analysis will still work based on the query."));
    record (Some ("Fact-check article about: " +:+ query))
           (Some "https://example.com/2")
           (Some ("Various sources discuss " +:+ query
                  +:+ ". Unable to retrieve actual search results at this time."));
    record (Some ("News article related to: " +:+ query))
           (Some "https://example.com/3")
           (Some ("Recent developments regarding " +:+ query
                  +:+ ". Search functionality limited but analysis can proceed.")) ].

(** [for selector in selectors: e = div.select_one(selector);
       if e: ...; break] *)
Fixpoint first_match (div : node) (selectors : list string)
    : option element :=
  match selectors with
  | [] => None
  | selector :: rest =>
      match select_one div selector with
      | Some e => Some e
      | None => first_match div rest
      end
  end.

(** [x or y] on strings. *)
Definition str_or (x y : string) : string :=
  if bool_decide (x = "") then y else x.

(** The body of the [for div in ...] loop of [_search_google_simple]. *)
Fixpoint google_loop (query : string) (limit : Z) (divs : list node)
    (results : list evidence) : list evidence :=
  match divs with
  | [] => results
  | div :: rest =>
      if (limit <=? Z.of_nat (length results))%Z then results
      else
        let title := get_text <$> first_match div ["h3"; "h3.LC20lb"; "h3.r"] in
        if negb (truthy title) then google_loop query limit rest results
        else
          let link := (λ e, default "" (href e)) <$> select_one div "a" in
          let snippet :=
            default "" (get_text <$>
              first_match div ["div.VwiC3b"; "span.aCOpRe"; "div.s"; "div.st"]) in
          if truthy title && truthy link
             && contains "http" (default "" link)
          then
            google_loop query limit rest
              (results ++
                 [record title link
                    (Some (str_or snippet
                             ("Information related to " +:+ query)))])
          else google_loop query limit rest results
  end.

(** The body of the [for result_div in ...] loop of
    [_search_duckduckgo]. *)
Fixpoint duckduckgo_loop (query : string) (limit : Z) (divs : list node)
    (results : list evidence) : list evidence :=
  match divs with
  | [] => results
  | result_div :: rest =>
      if (limit <=? Z.of_nat (length results))%Z then results
      else
        match find_a result_div "result__a" with
        | None => duckduckgo_loop query limit rest results
        | Some title_elem =>
            let title := get_text title_elem in
            let link := default "" (href title_elem) in
            let snippet :=
              match find_a result_div "result__snippet" with
              | Some snippet_elem => get_text snippet_elem
              | None => ""
              end in
            if truthy (Some title) && truthy (Some link) then
              duckduckgo_loop query limit rest
                (results ++
                   [record (Some title) (Some link)
                      (Some (str_or snippet
                               ("Information about " +:+ query)))])
            else duckduckgo_loop query limit rest results
        end
  end.

Section GoogleSearchScraper.

(** [self.api_key], [self.search_id]: [None] when the environment does
    not configure them. *)
Variables api_key search_id : option string.

(** [build("customsearch", "v1", developerKey).cse().list(q, cx, num)
    .execute()], observed through [response.get('items')]: the items
    as dicts, or [None] when the response has no ['items'] key. *)
Variable customsearch_execute :
  option string → string → option string → Z
  → outcome (option (list (gmap string string))).

(** [requests.get(url, params={'q': q}, ...)] and
    [requests.post(url, data={'q': q}, ...)]. *)
Variable requests_get : string → string → outcome http_response.
Variable requests_post : string → string → outcome http_response.

(** [BeautifulSoup(html, 'html.parser').select(selector)] and
    [BeautifulSoup(html, 'html.parser').find_all('div', class_=cls)]. *)
Variable soup_select : string → string → outcome (list node).
Variable soup_find_all_div : string → string → outcome (list node).

Definition _use_google_custom_search (query : string) (limit : Z)
    : outcome (list evidence) :=
  response ← customsearch_execute api_key query search_id limit;
  Return ((λ item : gmap string string,
             record (item !! "title") (item !! "link") (item !! "snippet"))
          <$> default [] response).

Definition _search_google_simple (query : string) (limit : Z)
    : outcome (list evidence) :=
  try_except
    (response ← requests_get "https://www.google.com/search" query;
     if negb (status_code response =? 200)%Z then Return []
     else
       divs ← soup_select (text response) "div.g, div.tF2Cxc, div.kvH3mc";
       Return (google_loop query limit divs []))
    is_Exception
    (λ _, Return []).

Definition _search_duckduckgo (query : string) (limit : Z)
    : outcome (list evidence) :=
  try_except
    (response ← requests_post "https://html.duckduckgo.com/html/" query;
     if negb (status_code response =? 200)%Z then Return []
     else
       divs ← soup_find_all_div (text response) "result";
       Return (duckduckgo_loop query limit divs []))
    is_Exception
    (λ _, Return []).

(** [results] is a local variable of [search]; it is bound by the first
    [if] only when both credentials are truthy. *)
Definition search (query : string) (num_results : Z)
    : outcome (list evidence) :=
  bound ← (if truthy api_key && truthy search_id
           then results ← _use_google_custom_search query num_results;
                Return (Some results)
           else Return None);
  results ← read_local "results" bound;
  results ← (if negb (nonempty results)
             then _search_google_simple query num_results
             else Return results);
  results ← (if negb (nonempty results)
             then _search_duckduckgo query num_results
             else Return results);
  results ← (if negb (nonempty results)
             then Return (_get_fallback_results query)
             else Return results);
  Return results.

End GoogleSearchScraper.

End Scraper.

(* ===================================================================== *)
(** * Vocabulary of the specification                                     *)
(* ===================================================================== *)

Module Spec.

Import PyStr.

(** [c] is one of the characters of [s]. *)
Definition char_in (c : ascii) (s : string) : Prop :=
  In c (list_ascii_of_string s).

Definition whitespace_only (s : string) : Prop :=
  s ≠ "" ∧ ∀ c, char_in c s → isspace c = true.

Definition has_alnum (s : string) : Prop :=
  ∃ c, char_in c s ∧ is_alnum c = true.

(** [sub] occurs in [s] at index [i]. *)
Definition occurs_at (sub s : string) (i : nat) : Prop :=
  ∃ pre post, s = pre +:+ sub +:+ post ∧ String.length pre = i.

Definition occurs (sub s : string) : Prop := ∃ i, occurs_at sub s i.

(** The first occurrence of [sub] in [s] is at index [i]. *)
Definition first_at (sub s : string) (i : nat) : Prop :=
  occurs_at sub s i ∧ ∀ j, j < i → ¬ occurs_at sub s j.

(** The last occurrence of [sub] in [s] is at index [i]. *)
Definition last_at (sub s : string) (i : nat) : Prop :=
  occurs_at sub s i ∧ ∀ j, i < j → ¬ occurs_at sub s j.

(** The record [d] has the key [k]. *)
Definition has_key (d : gmap string value) (k : string) : Prop :=
  is_Some (d !! k).

Definition scalar_keys : list string :=
  ["credibility_score"; "verdict"; "confidence"; "explanation"].

Definition list_keys : list string :=
  ["key_findings"; "red_flags"; "supporting_evidence"].

Definition required_keys : list string := scalar_keys ++ list_keys.

(** The dict after the default-merging loop of [_validate_analysis]. *)
Definition fill_defaults (items : list (string * value))
    (d : gmap string value) : gmap string value :=
  fold_left
    (λ (acc : gmap string value) (kv : string * value),
       match acc !! kv.1 with
       | Some _ => acc
       | None => <[kv.1 := kv.2]> acc
       end)
    items d.

(** [defaults[k]], if [k] is a key of [defaults]. *)
Fixpoint assoc (k : string) (items : list (string * value))
    : option value :=
  match items with
  | [] => None
  | (k', v) :: rest => if bool_decide (k' = k) then Some v else assoc k rest
  end.

(** The [credibility_score] of the record returned by
    [_validate_analysis], if it returns one. *)
Definition normalized_score (analysis : value) : option value :=
  match Analyzer._validate_analysis analysis with
  | Return (VDict d) => d !! "credibility_score"
  | _ => None
  end.

Definition is_dict (v : value) : bool :=
  match v with VDict _ => true | _ => false end.

Definition confidence_levels : list value :=
  [VStr "High"; VStr "Medium"; VStr "Low"].

(** [max(0, min(10, score))] after the string coercion. *)
Definition clamp_score (score : value) : outcome value :=
  lo ← PyObj.min_10 (Analyzer.coerce_score score);
  PyObj.max_0 lo.

(** A stored score that lies in [[0, 10]]: an integer in range, the
    boolean [True] (the integer 1), or a float strictly between the two
    bounds (at or beyond a bound the integer bound itself is stored). *)
Definition score_in_range (v : value) : Prop :=
  match v with
  | VInt z => (0 ≤ z ≤ 10)%Z
  | VBool b => b = true
  | VFloat f => PrimFloat.ltb 0%float f = true ∧ PrimFloat.ltb f 10%float = true
  | _ => False
  end.

(** The messages [analyze_claim] sends for a claim and its context. *)
Definition request (claim context : string) : list (string * string) :=
  [("system", Analyzer._get_system_prompt);
   ("user", Analyzer._create_analysis_prompt claim context)].

Section Failure.

Variable json_loads : string → outcome value.
Variable chat_completions_create :
  string → list (string * string) → Z → float
  → outcome (list (option string)).
Variable model : string.
Variable claim : string.
Variable search_results : list evidence.

(** The model answered: context assembly and the call succeeded and the
    first choice carries the text [text]. *)
Definition answered (text : string) : Prop :=
  ∃ context rest,
    Analyzer._prepare_context search_results = Return context
    ∧ chat_completions_create model (request claim context) 1000 0.8%float
      = Return (Some text :: rest).

(** An internal step of [analyze_claim] fails with the exception [e]:
    context assembly, the model call, reading the first choice, or the
    parsing of the answer with anything but a JSON decode error. *)
Inductive internal_failure : exn → Prop :=
| fail_context e :
    Analyzer._prepare_context search_results = Raise e →
    internal_failure e
| fail_model context e :
    Analyzer._prepare_context search_results = Return context →
    chat_completions_create model (request claim context) 1000 0.8%float
      = Raise e →
    internal_failure e
| fail_no_choice context e :
    Analyzer._prepare_context search_results = Return context →
    chat_completions_create model (request claim context) 1000 0.8%float
      = Return [] →
    Analyzer.first_content [] = Raise e →
    internal_failure e
| fail_no_content context rest :
    Analyzer._prepare_context search_results = Return context →
    chat_completions_create model (request claim context) 1000 0.8%float
      = Return (None :: rest) →
    internal_failure
      (PyObj.type_error "argument of type 'NoneType' is not iterable")
| fail_loads text e :
    answered text →
    json_loads (Analyzer.extract_json_str text) = Raise e →
    is_JSONDecodeError e = false →
    internal_failure e
| fail_validate text analysis e :
    answered text →
    json_loads (Analyzer.extract_json_str text) = Return analysis →
    Analyzer._validate_analysis analysis = Raise e →
    internal_failure e.

End Failure.

(** C1 as the specification words it: whatever the collaborators do,
    [analyze_claim] returns a record with all the required keys. *)
Definition every_record_has_required_keys : Prop :=
  ∀ json_loads chat_completions_create model claim search_results,
  ∃ d, Analyzer.analyze_claim json_loads chat_completions_create model
         claim search_results = Return (VDict d)
       ∧ Forall (has_key d) required_keys.

(** C4 as the specification words it: the confidence of every returned
    record is one of the three levels. *)
Definition every_confidence_is_a_level : Prop :=
  ∀ json_loads chat_completions_create model claim search_results d,
    Analyzer.analyze_claim json_loads chat_completions_create model
      claim search_results = Return (VDict d) →
    ∃ c, d !! "confidence" = Some c ∧ c ∈ confidence_levels.

(** Collaborators used to run the analyzer on concrete inputs. *)

(** A client whose call fails with a connection error. *)
Definition client_down :
    string → list (string * string) → Z → float
    → outcome (list (option string)) :=
  λ _ _ _ _, Raise (mk_exn (OtherException "APIConnectionError")
                      "Connection error.").

(** A client that answers every request with one choice of content
    [text]. *)
Definition client_says (text : string) :
    string → list (string * string) → Z → float
    → outcome (list (option string)) :=
  λ _ _ _ _, Return [Some text].

(** [json.loads] restricted to one document: [doc] parses to [v], every
    other text is rejected with a decode error. *)
Definition loads_only (doc : string) (v : value) : string → outcome value :=
  λ s, if bool_decide (s = doc) then Return v
       else Raise (mk_exn JSONDecodeError
                     "Expecting value: line 1 column 1 (char 0)").

(** The document [{"confidence": "Very High"}]. *)
Definition very_high_doc : string :=
  "{" +:+ dq +:+ "confidence" +:+ dq +:+ ": "
  +:+ dq +:+ "Very High" +:+ dq +:+ "}".

Definition diamond_claim : string :=
  "Scientists discover new planet made entirely of diamonds".

Definition prose_answer : string :=
  "I think this is probably true because...".

(** The part of [search] that follows the custom-search source, as a
    function of the [results] that source has bound: the cascade of
    fallbacks. *)
Definition fallback_cascade
    (requests_get requests_post : string → string → outcome http_response)
    (soup_select soup_find_all_div : string → string → outcome (list node))
    (query : string) (limit : Z) (results : list evidence)
    : outcome (list evidence) :=
  results ← (if negb (Scraper.nonempty results)
             then Scraper._search_google_simple requests_get soup_select
                    query limit
             else Return results);
  results ← (if negb (Scraper.nonempty results)
             then Scraper._search_duckduckgo requests_post soup_find_all_div
                    query limit
             else Return results);
  results ← (if negb (Scraper.nonempty results)
             then Return (Scraper._get_fallback_results query)
             else Return results);
  Return results.

(** The fence markers that [_parse_analysis] looks for. *)
Definition json_marker : string := "```json".
Definition fence : string := "```".

(** C7 as the specification words it.  [s] is the content between a
    [```json] marker of [text] and the next fence: *)
Definition fenced_content (text s : string) : Prop :=
  ∃ pre post,
    text = pre +:+ json_marker +:+ s +:+ fence +:+ post
    ∧ first_at fence (s +:+ fence +:+ post) (String.length s).

(** [s] is the span of [text] from the first opening brace to the last
    closing brace: *)
Definition brace_span (text s : string) : Prop :=
  ∃ pre mid post,
    text = pre +:+ "{" +:+ mid +:+ "}" +:+ post
    ∧ ¬ char_in "{" pre ∧ ¬ char_in "}" post
    ∧ s = "{" +:+ mid +:+ "}".

(** the three alternatives, in their priority order: *)
Definition chosen_as_stated (text s : string) : Prop :=
  (occurs json_marker text ∧ fenced_content text s)
  ∨ (¬ occurs json_marker text ∧ (occurs "{" text ∧ occurs "}" text)
     ∧ brace_span text s)
  ∨ (¬ occurs json_marker text ∧ ¬ (occurs "{" text ∧ occurs "}" text)
     ∧ s = text).

Definition extraction_as_stated : Prop :=
  ∀ text, chosen_as_stated text (Analyzer.extract_json_str text).

(** The object [{"credibility_score": 8, "verdict":"Likely True"}], the
    same object inside a closed [```json] fence, and inside a fence that
    is never closed. *)
Definition inner_object : string :=
  "{" +:+ dq +:+ "credibility_score" +:+ dq +:+ ": 8, "
  +:+ dq +:+ "verdict" +:+ dq +:+ ":" +:+ dq +:+ "Likely True" +:+ dq +:+ "}".

Definition fenced_example : string :=
  json_marker +:+ nl +:+ inner_object +:+ nl +:+ fence.

Definition unclosed_example : string :=
  json_marker +:+ nl +:+ inner_object.

(** Collaborators used to run the scraper on concrete inputs. *)

Definition no_network {A} : string → string → outcome A :=
  λ _ _, Raise (mk_exn (OtherException "ConnectionError")
                  "Max retries exceeded").

(** A custom-search service with two results to offer: it serves them when
    asked for at least two, and rejects any other request. *)
Definition two_items (k : option string) (q : string) (cx : option string)
    (num : Z) : outcome (option (list (gmap string string))) :=
  if (2 <=? num)%Z then
    Return (Some [ {[ "title" := "A"; "link" := "https://a.example";
                      "snippet" := "first" ]};
                   {[ "title" := "B"; "link" := "https://b.example" ]} ])
  else Raise (mk_exn (OtherException "HttpError") "Invalid Value").

(** A custom-search service that answers every request with four results,
    whatever the number [num] it is asked for. *)
Definition four_items (k : option string) (q : string) (cx : option string)
    (num : Z) : outcome (option (list (gmap string string))) :=
  Return (Some [ {[ "title" := "A"; "link" := "https://a.example";
                    "snippet" := "first" ]};
                 {[ "title" := "B"; "link" := "https://b.example";
                    "snippet" := "second" ]};
                 {[ "title" := "C"; "link" := "https://c.example";
                    "snippet" := "third" ]};
                 {[ "title" := "D"; "link" := "https://d.example";
                    "snippet" := "fourth" ]} ]).

(** C5 as the specification words it: whatever the credentials and the
    sources, a sequence that [search] returns has between 1 and [limit]
    records or is the placeholder sequence. *)
Definition result_size_as_stated : Prop :=
  ∀ api_key search_id customsearch_execute requests_get requests_post
    soup_select soup_find_all_div query limit E,
    Scraper.search api_key search_id customsearch_execute requests_get
      requests_post soup_select soup_find_all_div query limit = Return E →
    (1 ≤ Z.of_nat (length E) ≤ limit)%Z
    ∨ E = Scraper._get_fallback_results query.

End Spec.

(* ===================================================================== *)
(** * src/config.py                                                       *)
(* ===================================================================== *)

Module Config.

(** The attributes of a [Config] object. *)
Record t : Type := mk {
  openai_api_key : option string;
  model_name : string;
  max_tokens : Z;
  temperature : float;
  google_api_key : option string;
  google_cse_id : option string;
  max_search_results : Z;
  search_timeout : Z
}.

(** [int(s)] as a statement: [ValueError] when the text is no integer
    (the message shows at most 200 characters of [repr(s)]) or has too
    many digits. *)
Definition int_of (s : string) : outcome Z :=
  match PyStr.parse_int s with
  | inl z => Return z
  | inr PyStr.InvalidLiteral =>
      Raise (mk_exn ValueError
               ("invalid literal for int() with base 10: "
                +:+ PyStr.take 200 (PyStr.repr s)))
  | inr (PyStr.ExceedsLimit digits) =>
      Raise (mk_exn ValueError
               ("Exceeds the limit (4300 digits) for integer string conversion: value has "
                +:+ PyStr.of_Z digits
                +:+ " digits; use sys.set_int_max_str_digits() to increase the limit"))
  end.

Section Init.

(** [float(s)] for a [str] argument; [None] stands for [ValueError]. *)
Variable py_float : string → option float.

Definition float_of (s : string) : outcome float :=
  match py_float s with
  | Some f => Return f
  | None =>
      Raise (mk_exn ValueError
               ("could not convert string to float: " +:+ PyStr.repr s))
  end.

(** [Config()]; [environ] is [os.environ] once [load_dotenv()] has run.
    [os.getenv(k)] is [environ !! k], [os.getenv(k, d)] is
    [default d (environ !! k)]. *)
Definition __init__ (environ : gmap string string) : outcome t :=
  let openai_api_key := environ !! "OPENAI_API_KEY" in
  let model_name := default "gpt-5-nano" (environ !! "MODEL_NAME") in
  max_tokens ← int_of (default "1000" (environ !! "MAX_TOKENS"));
  temperature ← float_of (default "0.3" (environ !! "TEMPERATURE"));
  let google_api_key := environ !! "GOOGLE_API_KEY" in
  let google_cse_id := environ !! "GOOGLE_CSE_ID" in
  max_search_results ← int_of (default "5" (environ !! "MAX_SEARCH_RESULTS"));
  search_timeout ← int_of (default "10" (environ !! "SEARCH_TIMEOUT"));
  Return (mk openai_api_key model_name max_tokens temperature
            google_api_key google_cse_id max_search_results search_timeout).

End Init.

Definition validate (self : t) : bool :=
  if negb (Scraper.truthy (openai_api_key self)) then false else true.

End Config.

(* ===================================================================== *)
(** * Vocabulary for the properties of the remaining code                 *)
(* ===================================================================== *)

Module Coverage.

Import PyStr.

(** The record that one result block contributes to
    [_search_google_simple], if it contributes one: the body of the loop
    for a single [div]. *)
Definition google_record (query : string) (div : node) : option evidence :=
  let title :=
    get_text <$> Scraper.first_match div ["h3"; "h3.LC20lb"; "h3.r"] in
  let link := (λ e, default "" (href e)) <$> select_one div "a" in
  let snippet :=
    default "" (get_text <$>
      Scraper.first_match div
        ["div.VwiC3b"; "span.aCOpRe"; "div.s"; "div.st"]) in
  if Scraper.truthy title && Scraper.truthy link
     && contains "http" (default "" link)
  then Some (Scraper.record title link
               (Some (Scraper.str_or snippet
                        ("Information related to " +:+ query))))
  else None.

(** The record that one result block contributes to
    [_search_duckduckgo]. *)
Definition duckduckgo_record (query : string) (result_div : node)
    : option evidence :=
  match find_a result_div "result__a" with
  | None => None
  | Some title_elem =>
      let title := get_text title_elem in
      let link := default "" (href title_elem) in
      let snippet :=
        match find_a result_div "result__snippet" with
        | Some snippet_elem => get_text snippet_elem
        | None => ""
        end in
      if Scraper.truthy (Some title) && Scraper.truthy (Some link)
      then Some (Scraper.record (Some title) (Some link)
                   (Some (Scraper.str_or snippet
                            ("Information about " +:+ query))))
      else None
  end.

(** A non-empty text. *)
Definition filled (v : option (option string)) : Prop :=
  ∃ s, v = Some (Some s) ∧ s ≠ "".

(** An evidence record with the three fields [_prepare_context] reads. *)
Definition has_fields (r : evidence) : Prop :=
  is_Some (r !! "title") ∧ is_Some (r !! "link") ∧ is_Some (r !! "snippet").

(** The first of the fields title, link and snippet that a record lacks,
    in the order in which [_prepare_context] reads them. *)
Definition first_missing (r : evidence) : option string :=
  match r !! "title", r !! "link", r !! "snippet" with
  | None, _, _ => Some "title"
  | Some _, None, _ => Some "link"
  | Some _, Some _, None => Some "snippet"
  | Some _, Some _, Some _ => None
  end.

(** The block that [_prepare_context] renders for the [i]-th record. *)
Definition context_block (i : nat) (r : evidence) : string :=
  "Source " +:+ of_nat i +:+ ": "
  +:+ Analyzer.fmt (default None (r !! "title")) +:+ nl
  +:+ "URL: " +:+ Analyzer.fmt (default None (r !! "link")) +:+ nl
  +:+ "Summary: " +:+ Analyzer.fmt (default None (r !! "snippet")) +:+ nl.

(** The blocks for a list of records, numbered from [i]. *)
Fixpoint context_blocks (i : nat) (rs : list evidence) : list string :=
  match rs with
  | [] => []
  | r :: rest => context_block i r :: context_blocks (S i) rest
  end.

(** A score that [_validate_analysis] can clamp: absent, or a number, a
    boolean or a string. *)
Definition clampable (score : option value) : Prop :=
  match score with
  | Some (VNone | VList _ | VDict _) => False
  | _ => True
  end.

(** Result blocks and pages used to run the scraping sources. *)

(** A Google result block with a heading, an anchor and a snippet. *)
Definition google_block (title link snippet : string) : node :=
  mk_node
    (λ selector,
       if bool_decide (selector = "h3") then Some (mk_element title None)
       else if bool_decide (selector = "a")
            then Some (mk_element "" (Some link))
       else if bool_decide (selector = "div.VwiC3b")
            then Some (mk_element snippet None)
       else None)
    (λ _, None).

(** A DuckDuckGo result block with a title anchor and no snippet. *)
Definition duckduckgo_block (title link : string) : node :=
  mk_node (λ _, None)
    (λ cls, if bool_decide (cls = "result__a")
            then Some (mk_element title (Some link))
            else None).

(** An HTTP client that answers every request with status [status]. *)
Definition http_status (status : Z) : string → string → outcome http_response :=
  λ _ _, Return (mk_response status "<html></html>").

(** An HTML parser that finds the blocks [divs] in every page. *)
Definition parser_finds (divs : list node)
    : string → string → outcome (list node) :=
  λ _ _, Return divs.

Definition three_blocks : list node :=
  [ google_block "First" "https://one.example" "about one";
    google_block "" "https://untitled.example" "no heading text";
    google_block "Third" "https://three.example" "" ].

(** A custom-search service without results. *)
Definition no_items (k : option string) (q : string) (cx : option string)
    (num : Z) : outcome (option (list (gmap string string))) :=
  Return None.

(** The text "\x1f7": the unit separator, then the digit 7.  [strip]
    removes the separator, [int()] does not skip it. *)
Definition separator_seven : string := String "031"%char "7".

(** The text "\x1f12", as a value of MAX_TOKENS. *)
Definition separator_twelve : string := String "031"%char "12".

(** A literal of [n] digits 1. *)
Definition ones (n : nat) : string :=
  string_of_list_ascii (replicate n "1"%char).

(** A [float()] that knows the default temperature only. *)
Definition float_default (s : string) : option float :=
  if bool_decide (s = "0.3") then Some 0.3%float else None.

(** The four settings that [Config()] converts to numbers all parse. *)
Definition numeric_settings_parse (py_float : string → option float)
    (environ : gmap string string) : Prop :=
  is_Some (PyStr.int (default "1000" (environ !! "MAX_TOKENS")))
  ∧ is_Some (py_float (default "0.3" (environ !! "TEMPERATURE")))
  ∧ is_Some (PyStr.int (default "5" (environ !! "MAX_SEARCH_RESULTS")))
  ∧ is_Some (PyStr.int (default "10" (environ !! "SEARCH_TIMEOUT"))).

End Coverage.

(* ===================================================================== *)
(** * Properties of the string primitives                                 *)
(* ===================================================================== *)

Module PyStrFacts.

Import PyStr Spec.

Lemma existsb_char_in p s :
  existsb p s = true ↔ ∃ c, char_in c s ∧ p c = true.
Proof.
  unfold char_in. induction s as [|a s IH]; simpl.
  - split; [discriminate | intros (c & [] & _)].
  - rewrite orb_true_iff, IH. split.
    + intros [Ha | (c & Hc & Hp)]; [exists a | exists c]; auto.
    + intros (c & [<- | Hc] & Hp); [left | right; exists c]; auto.
Qed.

Lemma lstrip_whitespace s :
  (∀ c, char_in c s → isspace c = true) → lstrip s = "".
Proof.
  unfold char_in. induction s as [|a s IH]; simpl; intros H; [done|].
  rewrite (H a) by auto. apply IH. intros c Hc. apply H. auto.
Qed.

Lemma strip_whitespace s :
  (∀ c, char_in c s → isspace c = true) → strip s = "".
Proof. intros H. unfold strip. by rewrite lstrip_whitespace. Qed.

Lemma char_in_skip_int_space c s :
  char_in c (skip_int_space s) → char_in c s.
Proof.
  unfold char_in. induction s as [|a s IH]; simpl; [done|].
  destruct (int_space a); simpl; auto.
Qed.

(** The scan counts a digit only where the text has one. *)
Lemma int_scan_digit s prev acc digits acc' digits' rest :
  int_scan s prev acc digits = Some (acc', digits', rest) →
  digits' = digits ∨ ∃ c, char_in c s ∧ is_Some (digit_val c).
Proof.
  unfold char_in. revert prev acc digits.
  induction s as [|a s IH]; simpl; intros prev acc digits.
  - destruct prev; [done|]. intros [= _ <- _]. by left.
  - destruct (digit_val a) as [d|] eqn:Hd.
    + intros _. right. exists a. split; [by left | by rewrite Hd].
    + destruct (nat_of_ascii a =? 95).
      * destruct prev; [done|]. intros H.
        destruct (IH _ _ _ H) as [-> | (c & Hc & Hv)]; [by left|].
        right. exists c. auto.
      * destruct prev; [done|]. intros [= _ <- _]. by left.
Qed.

Lemma char_in_int_sign c t :
  char_in c (int_sign t).2 → char_in c t.
Proof.
  unfold char_in, int_sign. destruct t as [|a t]; [done|].
  destruct (nat_of_ascii a =? 43); [simpl; auto|].
  destruct (nat_of_ascii a =? 45); simpl; auto.
Qed.

Lemma int_magnitude_digit u m :
  int_magnitude u = inl m → ∃ c, char_in c u ∧ is_Some (digit_val c).
Proof.
  unfold int_magnitude.
  destruct (match u with String c _ => nat_of_ascii c =? 95 | _ => false end);
    [done|].
  destruct (int_scan u false 0 0) as [[[acc digits] rest]|] eqn:Hs; [|done].
  destruct (int_scan_digit _ _ _ _ _ _ _ Hs) as [-> | H]; [|by intros _].
  by destruct (int_max_str_digits <? 0)%Z.
Qed.

(** A text that [int()] accepts has a decimal digit. *)
Lemma int_has_digit s z :
  int s = Some z → ∃ c, char_in c s ∧ is_Some (digit_val c).
Proof.
  unfold int, parse_int. intros H.
  pose proof (char_in_int_sign) as Hsign.
  specialize (λ c, Hsign c (skip_int_space s)).
  destruct (int_sign (skip_int_space s)) as [negative u]. simpl in Hsign.
  destruct (int_magnitude u) as [m|e] eqn:Hm; [|done].
  destruct (int_magnitude_digit _ _ Hm) as (c & Hc & Hv).
  exists c. split; [|done].
  by apply char_in_skip_int_space, Hsign.
Qed.

Lemma int_without_digit s :
  (∀ c, char_in c s → digit_val c = None) → int s = None.
Proof.
  intros H. destruct (int s) as [z|] eqn:Hz; [|done].
  destruct (int_has_digit _ _ Hz) as (c & Hc & Hv).
  rewrite (H c Hc) in Hv. by destruct Hv.
Qed.

End PyStrFacts.

(* ===================================================================== *)
(** * Input validation                                                    *)
(* ===================================================================== *)

Module UtilsFacts.

Import PyStr Spec Utils PyStrFacts.

Lemma re_search_alnum_spec claim :
  re_search_alnum claim = true ↔ has_alnum claim.
Proof. apply existsb_char_in. Qed.

(** C9. [validate_input] is a total boolean function; it answers [false]
    exactly for the claims that are empty, whitespace-only, shorter than
    ten characters once trimmed, or without any character of
    [[a-zA-Z0-9]], and [true] for all others.  The five sample inputs of
    the specification evaluate as stated. *)
Theorem validate_input_spec :
  (∀ claim,
      validate_input claim = false ↔
        (claim = "" ∨ whitespace_only claim
         ∨ String.length (strip claim) < 10 ∨ ¬ has_alnum claim))
  ∧ (∀ claim, validate_input claim = true ∨ validate_input claim = false)
  ∧ validate_input "" = false
  ∧ validate_input "   " = false
  ∧ validate_input "short" = false
  ∧ validate_input "!!!!!!!!!!" = false
  ∧ validate_input "1234567890" = true.
Proof.
  split; [|split; [intros claim; destruct (validate_input claim); auto |
                   repeat split; reflexivity]].
  intros claim. unfold validate_input.
  destruct (bool_decide_reflect (claim = "")) as [He|He]; simpl.
  { split; auto. }
  destruct (Z.ltb_spec (Z.of_nat (String.length (strip claim))) 10)
    as [Hlt|Hge].
  { split; auto. intros _. right; right; left. lia. }
  destruct (re_search_alnum claim) eqn:Hre; simpl.
  - apply re_search_alnum_spec in Hre. split; [discriminate|].
    intros [?|[[_ Hws]|[Hlen|Hna]]]; try done.
    + rewrite (strip_whitespace _ Hws) in Hge. simpl in Hge. lia.
    + lia.
  - split; auto. intros _. do 3 right.
    rewrite <- re_search_alnum_spec. congruence.
Qed.

End UtilsFacts.


(* ===================================================================== *)
(** * Normalisation of the parsed model output                            *)
(* ===================================================================== *)

Module ValidateFacts.

Import PyStr Spec Analyzer.

Lemma bind_return {A B} (a : A) (f : A → outcome B) : Return a ≫= f = f a.
Proof. reflexivity. Qed.

Lemma bind_raise {A B} (e : exn) (f : A → outcome B) :
  Raise e ≫= f = Raise e.
Proof. reflexivity. Qed.

Lemma merge_defaults_dict items d :
  merge_defaults items (VDict d) = Return (VDict (fill_defaults items d)).
Proof.
  revert d. induction items as [|[k v] items IH]; intros d; [done|].
  cbn [merge_defaults fill_defaults fold_left PyObj.contains fst snd].
  unfold mbind, outcome_bind at 1.
  destruct (d !! k) as [w|] eqn:Hk.
  - rewrite bool_decide_eq_true_2 by eauto. cbn. apply IH.
  - rewrite bool_decide_eq_false_2 by (intros [? ?]; congruence). cbn. apply IH.
Qed.

Lemma fill_defaults_present items d k v :
  d !! k = Some v → fill_defaults items d !! k = Some v.
Proof.
  revert d. induction items as [|[k' v'] items IH]; intros d Hk; [done|].
  cbn [fill_defaults fold_left fst snd].
  destruct (d !! k') eqn:Hk'; apply IH; [done|].
  rewrite lookup_insert_ne; [done|]. intros ->. congruence.
Qed.

Lemma fill_defaults_absent items d k :
  d !! k = None → fill_defaults items d !! k = assoc k items.
Proof.
  revert d. induction items as [|[k' v'] items IH]; intros d Hk; [done|].
  cbn [fill_defaults fold_left fst snd assoc].
  destruct (bool_decide_reflect (k' = k)) as [->|Hne].
  - rewrite Hk. apply fill_defaults_present, lookup_insert_eq.
  - destruct (d !! k') eqn:Hk'; apply IH; [done|].
    by rewrite lookup_insert_ne.
Qed.

(** [_validate_analysis] on a dict, in one equation. *)
Lemma validate_analysis_dict d :
  _validate_analysis (VDict d) =
    (let m := fill_defaults defaults d in
     clamped ← clamp_score (default (VInt 5) (m !! "credibility_score"));
     Return (VDict (<["credibility_score" := clamped]> m))).
Proof.
  unfold _validate_analysis. rewrite merge_defaults_dict. cbn.
  unfold clamp_score.
  destruct (PyObj.min_10 _) as [lo|e]; cbn; [|done].
  destruct (PyObj.max_0 lo); done.
Qed.

Lemma clamp_score_int z :
  clamp_score (VInt z) = Return (VInt (Z.max 0 (Z.min 10 z))).
Proof.
  unfold clamp_score. cbn.
  destruct (Z.ltb_spec z 10); cbn.
  - destruct (Z.ltb_spec 0 z); do 2 f_equal; lia.
  - do 2 f_equal; lia.
Qed.

Lemma clamp_score_str s :
  clamp_score (VStr s) =
    Return (VInt (Z.max 0 (Z.min 10 (default 5%Z (PyStr.int s))))).
Proof.
  unfold clamp_score. cbn [coerce_score].
  destruct (PyStr.int s) as [z|]; [apply clamp_score_int|done].
Qed.

Lemma clamp_score_float f :
  clamp_score (VFloat f) =
    Return (if PrimFloat.ltb f 10%float
            then if PrimFloat.ltb 0%float f then VFloat f else VInt 0
            else VInt 10).
Proof. unfold clamp_score. cbn. by destruct (PrimFloat.ltb f 10). Qed.

Lemma clamp_score_bool b :
  clamp_score (VBool b) = Return (if b then VBool true else VInt 0).
Proof. done. Qed.

(** The clamp raises only for a score that is not a number or a string,
    and then a [TypeError]. *)
Lemma clamp_score_raise score e :
  clamp_score score = Raise e → exn_cls e = TypeError.
Proof.
  destruct score as [|b|z|f|s|l|d];
    rewrite ?clamp_score_int, ?clamp_score_str, ?clamp_score_float,
      ?clamp_score_bool; try done; by intros [= <-].
Qed.

Lemma merge_defaults_other items a :
  is_dict a = false →
  merge_defaults items a = Return a
  ∨ ∃ e, merge_defaults items a = Raise e ∧ exn_cls e = TypeError.
Proof.
  intros Ha. induction items as [|[k v] items IH]; [by left|].
  cbn [merge_defaults].
  destruct a as [| | | |s|l|d]; try done;
    try (right; eexists; split; done).
  - cbn. destruct (PyStr.contains k s); cbn; [done|].
    right. eexists. split; done.
  - cbn. destruct (List.existsb _ l); cbn; [done|].
    right. eexists. split; done.
Qed.

(** A parsed value that is not a dict makes [_validate_analysis] raise. *)
Lemma validate_analysis_other a :
  is_dict a = false →
  ∃ e, _validate_analysis a = Raise e
       ∧ (exn_cls e = TypeError ∨ exn_cls e = AttributeError).
Proof.
  intros Ha. unfold _validate_analysis.
  destruct (merge_defaults_other defaults a Ha) as [-> | (e & -> & He)].
  - destruct a; try done; eexists; (split; [done | by right]).
  - exists e. split; [done | by left].
Qed.

(** Only a dict gets through [_validate_analysis]. *)
Lemma validate_analysis_returns_dict analysis r :
  _validate_analysis analysis = Return r →
  ∃ d d', analysis = VDict d ∧ r = VDict d'.
Proof.
  intros H. destruct (is_dict analysis) eqn:Ha.
  - destruct analysis as [| | | | | |d]; try done. exists d.
    rewrite validate_analysis_dict in H. cbn zeta in H.
    destruct (clamp_score _) as [c|?]; [|done]. injection H as <-. eauto.
  - destruct (validate_analysis_other _ Ha) as (e & He & _). congruence.
Qed.

(** [_validate_analysis] never raises a JSON decode error. *)
Lemma validate_analysis_no_decode_error analysis e :
  _validate_analysis analysis = Raise e → is_JSONDecodeError e = false.
Proof.
  intros H. unfold is_JSONDecodeError. destruct (is_dict analysis) eqn:Ha.
  - destruct analysis as [| | | | | |d]; try done.
    rewrite validate_analysis_dict in H. cbn zeta in H.
    destruct (clamp_score _) as [c|e'] eqn:Hc; [done|].
    injection H as <-. by rewrite (clamp_score_raise _ _ Hc).
  - destruct (validate_analysis_other _ Ha) as (e' & He & [Hc|Hc]);
      rewrite H in He; injection He as <-; by rewrite Hc.
Qed.

Lemma clamp_score_in_range score r :
  clamp_score score = Return r → score_in_range r.
Proof.
  destruct score as [|b|z|f|s|l|d]; try done.
  - destruct b; intros [= <-]; cbn; [done | lia].
  - rewrite clamp_score_int. intros [= <-]. cbn. lia.
  - unfold clamp_score. cbn.
    destruct (PrimFloat.ltb f 10) eqn:H10; cbn.
    + destruct (PrimFloat.ltb 0 f) eqn:H0; intros [= <-]; cbn; [done | lia].
    + intros [= <-]. cbn. lia.
  - rewrite clamp_score_str. intros [= <-]. cbn. lia.
Qed.

(** Whatever the parsed value, a record that [_validate_analysis] returns
    stores a score of [[0, 10]]. *)
Lemma validated_score_in_range analysis d' :
  _validate_analysis analysis = Return (VDict d') →
  ∃ c, d' !! "credibility_score" = Some c ∧ score_in_range c.
Proof.
  intros H.
  destruct (validate_analysis_returns_dict _ _ H) as (d & ? & -> & _).
  rewrite validate_analysis_dict in H. cbn zeta in H.
  destruct (clamp_score _) as [c|?] eqn:Hc; [|done].
  rewrite bind_return in H.
  assert (d' = <["credibility_score" := c]> (fill_defaults defaults d))
    as -> by congruence.
  exists c. split; [apply lookup_insert_eq | by eapply clamp_score_in_range].
Qed.

Lemma normalized_score_insert d score :
  normalized_score (VDict (<["credibility_score" := score]> d)) =
    match clamp_score score with Return c => Some c | Raise _ => None end.
Proof.
  unfold normalized_score. rewrite validate_analysis_dict. cbn zeta.
  rewrite (fill_defaults_present _ _ _ score) by apply lookup_insert_eq.
  cbn [from_option id]. destruct (clamp_score score) as [c|e]; [|done].
  apply lookup_insert_eq.
Qed.

(** C6. Normalisation of a parsed [credibility_score]: the integer 15
    becomes 10, the integer -3 becomes 0, the string "7" becomes 7, every
    string that [int()] rejects becomes the default 5, and for every
    integer or string input the stored score is an integer of [[0, 10]].
    Among the strings that [int()] rejects: every string without a decimal
    digit, the string "\x1f7" (whose separator [int()] does not skip) and
    a literal of 4301 digits (one more than [int()] converts). *)
Theorem credibility_score_normalization (d : gmap string value) :
  normalized_score (VDict (<["credibility_score" := VInt 15]> d))
    = Some (VInt 10)
  ∧ normalized_score (VDict (<["credibility_score" := VInt (-3)]> d))
    = Some (VInt 0)
  ∧ normalized_score (VDict (<["credibility_score" := VStr "7"]> d))
    = Some (VInt 7)
  ∧ (∀ s, PyStr.int s = None →
       normalized_score (VDict (<["credibility_score" := VStr s]> d))
         = Some (VInt 5))
  ∧ (∀ z, ∃ r,
       normalized_score (VDict (<["credibility_score" := VInt z]> d))
         = Some (VInt r) ∧ (0 ≤ r ≤ 10)%Z)
  ∧ (∀ s, ∃ r,
       normalized_score (VDict (<["credibility_score" := VStr s]> d))
         = Some (VInt r) ∧ (0 ≤ r ≤ 10)%Z)
  ∧ (∀ s, (∀ c, char_in c s → PyStr.digit_val c = None) →
       normalized_score (VDict (<["credibility_score" := VStr s]> d))
         = Some (VInt 5))
  ∧ normalized_score
      (VDict (<["credibility_score" := VStr Coverage.separator_seven]> d))
    = Some (VInt 5)
  ∧ normalized_score
      (VDict (<["credibility_score" := VStr (Coverage.ones 4301)]> d))
    = Some (VInt 5).
Proof.
  assert (∀ s, PyStr.int s = None →
       normalized_score (VDict (<["credibility_score" := VStr s]> d))
         = Some (VInt 5)) as Hnone.
  { intros s Hs. rewrite normalized_score_insert, clamp_score_str, Hs. done. }
  split_and!.
  - by rewrite normalized_score_insert.
  - by rewrite normalized_score_insert.
  - by rewrite normalized_score_insert.
  - exact Hnone.
  - intros z. eexists. rewrite normalized_score_insert, clamp_score_int.
    split; [done | lia].
  - intros s. eexists. rewrite normalized_score_insert, clamp_score_str.
    split; [done | lia].
  - intros s Hs. by apply Hnone, PyStrFacts.int_without_digit.
  - apply Hnone. reflexivity.
  - apply Hnone. vm_compute. reflexivity.
Qed.

(** The non-numeric case of C6 at the string "seven". *)
Lemma credibility_score_normalization_witness :
  PyStr.int "seven" = None
  ∧ normalized_score (VDict {[ "credibility_score" := VStr "seven" ]})
    = Some (VInt 5).
Proof.
  split; [reflexivity|].
  destruct (credibility_score_normalization ∅) as (_ & _ & _ & H & _).
  apply (H "seven"). reflexivity.
Defined.

End ValidateFacts.

(* ===================================================================== *)
(** * Frame property of the normalisation                                 *)
(* ===================================================================== *)

Module FrameFacts.

Import PyStr Spec Analyzer ValidateFacts.

Lemma fill_defaults_score_default d :
  default (VInt 5) (fill_defaults defaults d !! "credibility_score")
  = default (VInt 5) (d !! "credibility_score").
Proof.
  destruct (d !! "credibility_score") as [v|] eqn:Hd.
  - by rewrite (fill_defaults_present _ _ _ _ Hd).
  - by rewrite (fill_defaults_absent _ _ _ Hd).
Qed.

(** [_validate_analysis] returns for every dict whose score, if present,
    is a number, a boolean or a string. *)
Lemma validate_analysis_returns d :
  match d !! "credibility_score" with
  | Some (VNone | VList _ | VDict _) => False
  | _ => True
  end →
  ∃ d', _validate_analysis (VDict d) = Return (VDict d').
Proof.
  intros H. rewrite validate_analysis_dict. cbn zeta.
  rewrite fill_defaults_score_default.
  destruct (d !! "credibility_score") as [[|b|z|f|s|l|m]|]; try done; cbn [from_option id];
    rewrite ?clamp_score_int, ?clamp_score_str, ?clamp_score_float,
      ?clamp_score_bool; eauto.
Qed.

(** C10. When [_validate_analysis] returns for a parsed dict, every key
    other than [credibility_score] that was present keeps its value, an
    absent key receives its default (and stays absent when it has none),
    and [credibility_score] alone is rewritten, to the coerced and clamped
    score; a model-supplied verdict or explanation passes through
    unchanged. *)
Theorem validate_analysis_frame (d : gmap string value) (r : value) :
  _validate_analysis (VDict d) = Return r →
  ∃ d' c,
    r = VDict d'
    ∧ (∀ k v, k ≠ "credibility_score" → d !! k = Some v → d' !! k = Some v)
    ∧ (∀ k, k ≠ "credibility_score" → d !! k = None →
         d' !! k = assoc k defaults)
    ∧ clamp_score (default (VInt 5) (d !! "credibility_score")) = Return c
    ∧ d' !! "credibility_score" = Some c
    ∧ (∀ v, d !! "verdict" = Some v → d' !! "verdict" = Some v)
    ∧ (∀ v, d !! "explanation" = Some v → d' !! "explanation" = Some v).
Proof.
  rewrite validate_analysis_dict. cbn zeta.
  rewrite fill_defaults_score_default.
  destruct (clamp_score _) as [c|e]; [|done]. intros [= <-].
  assert (Hframe : ∀ k v, k ≠ "credibility_score" → d !! k = Some v →
            <["credibility_score" := c]> (fill_defaults defaults d) !! k
            = Some v).
  { intros k v Hk Hd. rewrite lookup_insert_ne by done.
    by apply fill_defaults_present. }
  exists (<["credibility_score" := c]> (fill_defaults defaults d)), c.
  split_and!; try done.
  - intros k Hk Hd. rewrite lookup_insert_ne by done.
    by apply fill_defaults_absent.
  - apply lookup_insert_eq.
  - intros v. by apply Hframe.
  - intros v. by apply Hframe.
Qed.

(** C10 at a dict with a verdict and an out-of-range score. *)
Lemma validate_analysis_frame_witness :
  ∃ d' c,
    _validate_analysis
      (VDict {[ "verdict" := VStr "Likely True";
                "credibility_score" := VInt 15 ]})
    = Return (VDict d')
    ∧ d' !! "verdict" = Some (VStr "Likely True")
    ∧ d' !! "confidence" = Some (VStr "Medium")
    ∧ d' !! "credibility_score" = Some c
    ∧ c = VInt 10.
Proof.
  destruct (validate_analysis_returns
              {[ "verdict" := VStr "Likely True";
                 "credibility_score" := VInt 15 ]}) as [d' Hd']; [done|].
  destruct (validate_analysis_frame _ _ Hd')
    as (d'' & c & [= <-] & Hkeep & Hfill & Hc & Hs & _).
  exists d', c. split; [done|]. split; [by apply Hkeep|].
  split; [by rewrite Hfill|]. split; [done|].
  vm_compute in Hc. congruence.
Defined.

End FrameFacts.

(* ===================================================================== *)
(** * The analyzer                                                        *)
(* ===================================================================== *)

Module AnalyzeFacts.

Import PyStr Spec Analyzer ValidateFacts.

Lemma failure_record_fields e :
  failure_record e !! "credibility_score" = Some (VInt 0)
  ∧ failure_record e !! "verdict" = Some (VStr "Analysis Failed")
  ∧ failure_record e !! "confidence" = Some (VStr "Low")
  ∧ failure_record e !! "explanation"
    = Some (VStr ("Could not complete analysis: " +:+ exn_msg e))
  ∧ failure_record e !! "key_findings" = None
  ∧ failure_record e !! "red_flags" = None
  ∧ failure_record e !! "supporting_evidence" = None.
Proof. split_and!; reflexivity. Qed.

Lemma non_json_record_fields text :
  non_json_record text !! "explanation" = Some (VStr text)
  ∧ non_json_record text !! "credibility_score" = Some (VInt 5)
  ∧ non_json_record text !! "verdict" = Some (VStr "Uncertain")
  ∧ non_json_record text !! "confidence" = Some (VStr "Medium")
  ∧ non_json_record text !! "key_findings" = Some (VList [])
  ∧ non_json_record text !! "red_flags" = Some (VList [])
  ∧ non_json_record text !! "supporting_evidence" = Some (VList []).
Proof. split_and!; reflexivity. Qed.

(** A validated record has every key of [defaults]. *)
Lemma validated_has_required_keys analysis d' :
  _validate_analysis analysis = Return (VDict d') →
  Forall (has_key d') required_keys.
Proof.
  intros H.
  destruct (validate_analysis_returns_dict _ _ H) as (d & ? & -> & _).
  rewrite validate_analysis_dict in H. cbn zeta in H.
  destruct (clamp_score _) as [c|?]; [|done]. injection H as <-.
  assert (Hk : ∀ k, is_Some (assoc k defaults) →
            has_key (<["credibility_score" := c]> (fill_defaults defaults d)) k).
  { intros k Hdef. unfold has_key.
    destruct (decide (k = "credibility_score")) as [->|Hne].
    - rewrite lookup_insert_eq. eauto.
    - rewrite lookup_insert_ne by done.
      destruct (d !! k) as [v|] eqn:Hd.
      + rewrite (fill_defaults_present _ _ _ _ Hd). eauto.
      + by rewrite (fill_defaults_absent _ _ _ Hd). }
  unfold required_keys, scalar_keys, list_keys.
  repeat (apply Forall_cons; split; [apply Hk; cbn; eauto|]).
  apply Forall_nil_2.
Qed.

(** The confidence of a validated record is the parsed one, or ["Medium"]
    when the parsed dict has none. *)
Lemma validated_confidence d d' :
  _validate_analysis (VDict d) = Return (VDict d') →
  d' !! "confidence" = Some (default (VStr "Medium") (d !! "confidence")).
Proof.
  rewrite validate_analysis_dict. cbn zeta.
  destruct (clamp_score _) as [c|?]; [|done]. intros H.
  rewrite bind_return in H.
  assert (d' = <["credibility_score" := c]> (fill_defaults defaults d))
    as -> by congruence.
  rewrite lookup_insert_ne by done.
  destruct (d !! "confidence") as [v|] eqn:Hd.
  - by rewrite (fill_defaults_present _ _ _ _ Hd).
  - by rewrite (fill_defaults_absent _ _ _ Hd).
Qed.

Section Analyze.

Variable json_loads : string → outcome value.
Variable chat_completions_create :
  string → list (string * string) → Z → float
  → outcome (list (option string)).
Variable model : string.

Abbreviation parse := (_parse_analysis json_loads).
Abbreviation analyze := (analyze_claim json_loads chat_completions_create model).
Abbreviation failure := (internal_failure json_loads chat_completions_create model).
Abbreviation answers := (answered chat_completions_create model).

(** [_parse_analysis] by the outcome of [json.loads]. *)
Lemma parse_analysis_eq text :
  parse text =
    match json_loads (extract_json_str text) with
    | Return analysis => _validate_analysis analysis
    | Raise e =>
        if is_JSONDecodeError e then Return (VDict (non_json_record text))
        else Raise e
    end.
Proof.
  unfold _parse_analysis, try_except. cbn zeta.
  destruct (json_loads _) as [a|e]; rewrite ?bind_return, ?bind_raise; [|done].
  destruct (_validate_analysis a) as [r|e] eqn:Hv; [done|].
  by rewrite (validate_analysis_no_decode_error _ _ Hv).
Qed.

(** [analyze_claim] once the model has answered with [text]. *)
Lemma analyze_answered claim search_results text :
  answers claim search_results text →
  analyze claim search_results =
    match parse text with
    | Return r => Return r
    | Raise e => Return (VDict (failure_record e))
    end.
Proof.
  intros (context & rest & Hc & Hr). unfold request in Hr.
  unfold analyze_claim, try_except. rewrite Hc, bind_return. cbn zeta.
  rewrite Hr, bind_return. cbn [first_content]. rewrite bind_return.
  by destruct (parse text).
Qed.

Lemma analyze_claim_failure claim search_results e :
  failure claim search_results e →
  analyze claim search_results = Return (VDict (failure_record e)).
Proof.
  intros Hf. destruct Hf as [e Hc|context e Hc Hr|context e Hc Hr He
                            |context rest Hc Hr|text e Ha Hl He
                            |text analysis e Ha Hl Hv].
  - unfold analyze_claim, try_except. by rewrite Hc, bind_raise.
  - unfold request in Hr. unfold analyze_claim, try_except.
    rewrite Hc, bind_return. cbn zeta. by rewrite Hr, bind_raise.
  - unfold request in Hr. unfold analyze_claim, try_except.
    rewrite Hc, bind_return. cbn zeta. by rewrite Hr, bind_return, He, bind_raise.
  - unfold request in Hr. unfold analyze_claim, try_except.
    rewrite Hc, bind_return. cbn zeta. rewrite Hr, bind_return.
    cbn [first_content]. by rewrite bind_return.
  - rewrite (analyze_answered _ _ _ Ha), parse_analysis_eq, Hl, He. done.
  - rewrite (analyze_answered _ _ _ Ha), parse_analysis_eq, Hl, Hv. done.
Qed.

(** The three ways [analyze_claim] ends: the failure record, the record
    for a non-JSON answer, or the validated record of a parsed dict. *)
Lemma analyze_claim_cases claim search_results :
  (∃ e, failure claim search_results e
        ∧ analyze claim search_results = Return (VDict (failure_record e)))
  ∨ (∃ text e, answers claim search_results text
        ∧ json_loads (extract_json_str text) = Raise e
        ∧ is_JSONDecodeError e = true
        ∧ analyze claim search_results
          = Return (VDict (non_json_record text)))
  ∨ (∃ text m d', answers claim search_results text
        ∧ json_loads (extract_json_str text) = Return (VDict m)
        ∧ _validate_analysis (VDict m) = Return (VDict d')
        ∧ analyze claim search_results = Return (VDict d')).
Proof.
  assert (Hfail : ∀ e, failure claim search_results e →
            ∃ e, failure claim search_results e
                 ∧ analyze claim search_results
                   = Return (VDict (failure_record e))).
  { intros e He. exists e. split; [done | by apply analyze_claim_failure]. }
  destruct (_prepare_context search_results) as [context|e] eqn:Hc;
    [|left; eapply Hfail, fail_context; done].
  destruct (chat_completions_create model (request claim context) 1000 0.8%float)
    as [[|[text|] rest]|e] eqn:Hr.
  - left. eapply Hfail, fail_no_choice; done.
  - assert (Ha : answers claim search_results text) by (exists context, rest; done).
    destruct (json_loads (extract_json_str text)) as [a|e] eqn:Hl.
    + destruct (_validate_analysis a) as [r|e] eqn:Hv.
      * destruct (validate_analysis_returns_dict _ _ Hv) as (m & d' & -> & ->).
        right; right. exists text, m, d'. split_and!; try done.
        by rewrite (analyze_answered _ _ _ Ha), parse_analysis_eq, Hl, Hv.
      * left. eapply Hfail, fail_validate; done.
    + destruct (is_JSONDecodeError e) eqn:He.
      * right; left. exists text, e. split_and!; try done.
        by rewrite (analyze_answered _ _ _ Ha), parse_analysis_eq, Hl, He.
      * left. eapply Hfail, fail_loads; done.
  - left. eapply Hfail, fail_no_content; done.
  - left. eapply Hfail, fail_model; done.
Qed.

(** C3. [analyze_claim] never raises: it always returns a record, and
    when an internal step fails with an exception [e] (context assembly,
    the model call, reading the answer, or parsing with anything but a
    JSON decode error) the record has score 0, verdict "Analysis Failed",
    confidence "Low" and an explanation that carries the message of
    [e]. *)
Theorem analyze_claim_never_raises (claim : string)
    (search_results : list evidence) :
  (∃ d, analyze_claim json_loads chat_completions_create model
          claim search_results = Return (VDict d))
  ∧ (∀ e, internal_failure json_loads chat_completions_create model
            claim search_results e →
       ∃ d, analyze_claim json_loads chat_completions_create model
              claim search_results = Return (VDict d)
            ∧ d !! "credibility_score" = Some (VInt 0)
            ∧ d !! "verdict" = Some (VStr "Analysis Failed")
            ∧ d !! "confidence" = Some (VStr "Low")
            ∧ d !! "explanation"
              = Some (VStr ("Could not complete analysis: " +:+ exn_msg e))).
Proof.
  split.
  - destruct (analyze_claim_cases claim search_results)
      as [(e & _ & ->) | [(text & e & _ & _ & _ & ->)
                         | (text & m & d' & _ & _ & _ & ->)]]; eauto.
  - intros e He. exists (failure_record e).
    split; [by apply analyze_claim_failure|].
    destruct (failure_record_fields e) as (? & ? & ? & ? & _). done.
Qed.

(** C1, amended. Every record returned by [analyze_claim] has the keys
    [credibility_score], [verdict], [confidence] and [explanation]; it
    also has the three list keys unless it is the record of the
    internal-failure path. *)
Theorem analyze_claim_keys (claim : string)
    (search_results : list evidence) :
  ∃ d, analyze_claim json_loads chat_completions_create model
         claim search_results = Return (VDict d)
       ∧ Forall (has_key d) scalar_keys
       ∧ ((∃ e, internal_failure json_loads chat_completions_create model
                  claim search_results e
                ∧ d = failure_record e)
          ∨ Forall (has_key d) list_keys).
Proof.
  destruct (analyze_claim_cases claim search_results)
    as [(e & He & ->) | [(text & e & _ & _ & _ & ->)
                        | (text & m & d' & _ & _ & Hv & ->)]].
  - exists (failure_record e). split; [done|]. split; [|left; eauto].
    destruct (failure_record_fields e) as (? & ? & ? & ? & _).
    unfold scalar_keys, has_key. repeat (apply Forall_cons; split; [eauto|]).
    apply Forall_nil_2.
  - exists (non_json_record text). split; [done|].
    destruct (non_json_record_fields text) as (? & ? & ? & ? & ? & ? & ?).
    unfold scalar_keys, list_keys, has_key.
    split; [|right]; repeat (apply Forall_cons; split; [eauto|]);
      apply Forall_nil_2.
  - exists d'. split; [done|].
    apply validated_has_required_keys, Forall_app in Hv as [? ?]. auto.
Qed.

(** C4, amended. Every record returned by [analyze_claim] has a
    confidence: "Low" on the internal-failure path, "Medium" for a
    non-JSON answer, and otherwise the confidence of the parsed dict,
    unchanged, or "Medium" when the parsed dict has none. *)
Theorem analyze_claim_confidence (claim : string)
    (search_results : list evidence) :
  ∃ d c, analyze_claim json_loads chat_completions_create model
           claim search_results = Return (VDict d)
    ∧ d !! "confidence" = Some c
    ∧ ((∃ e, internal_failure json_loads chat_completions_create model
               claim search_results e
             ∧ c = VStr "Low")
       ∨ (∃ text e,
            answered chat_completions_create model claim search_results text
            ∧ json_loads (extract_json_str text) = Raise e
            ∧ is_JSONDecodeError e = true
            ∧ c = VStr "Medium")
       ∨ (∃ text m,
            answered chat_completions_create model claim search_results text
            ∧ json_loads (extract_json_str text) = Return (VDict m)
            ∧ c = default (VStr "Medium") (m !! "confidence"))).
Proof.
  destruct (analyze_claim_cases claim search_results)
    as [(e & He & ->) | [(text & e & Ha & Hl & He & ->)
                        | (text & m & d' & Ha & Hl & Hv & ->)]].
  - exists (failure_record e), (VStr "Low"). split_and!; [done..|].
    left. eauto.
  - exists (non_json_record text), (VStr "Medium"). split_and!; [done..|].
    right; left. exists text, e. done.
  - exists d', (default (VStr "Medium") (m !! "confidence")).
    split_and!; [done | by apply validated_confidence |].
    right; right. exists text, m. done.
Qed.

(** C8. When [json.loads] rejects the extracted text with a decode error,
    [_parse_analysis] returns the record whose explanation is the whole
    response text, with score 5, verdict "Uncertain", confidence "Medium"
    and three empty lists; [analyze_claim] returns that record for every
    claim that the model answered with this text. *)
Theorem parse_failure_fallback (analysis_text : string) (e : exn) :
  json_loads (extract_json_str analysis_text) = Raise e →
  is_JSONDecodeError e = true →
  ∃ d, _parse_analysis json_loads analysis_text = Return (VDict d)
    ∧ d !! "explanation" = Some (VStr analysis_text)
    ∧ d !! "credibility_score" = Some (VInt 5)
    ∧ d !! "verdict" = Some (VStr "Uncertain")
    ∧ d !! "confidence" = Some (VStr "Medium")
    ∧ d !! "key_findings" = Some (VList [])
    ∧ d !! "red_flags" = Some (VList [])
    ∧ d !! "supporting_evidence" = Some (VList [])
    ∧ (∀ claim search_results,
         answered chat_completions_create model claim search_results
           analysis_text →
         analyze_claim json_loads chat_completions_create model
           claim search_results = Return (VDict d)).
Proof.
  intros Hl He. exists (non_json_record analysis_text).
  assert (Hp : parse analysis_text
               = Return (VDict (non_json_record analysis_text))).
  { by rewrite parse_analysis_eq, Hl, He. }
  destruct (non_json_record_fields analysis_text)
    as (? & ? & ? & ? & ? & ? & ?).
  split_and!; try done.
  intros claim search_results Ha.
  by rewrite (analyze_answered _ _ _ Ha), Hp.
Qed.

End Analyze.

(** C3 on the end-to-end example of the specification: the placeholder
    evidence for the diamond claim, and a model call that fails. *)
Lemma analyze_claim_never_raises_witness :
  internal_failure (loads_only very_high_doc VNone) client_down "gpt-5-nano"
    diamond_claim (Scraper._get_fallback_results diamond_claim)
    (mk_exn (OtherException "APIConnectionError") "Connection error.")
  ∧ ∃ d, analyze_claim (loads_only very_high_doc VNone) client_down
           "gpt-5-nano" diamond_claim
           (Scraper._get_fallback_results diamond_claim) = Return (VDict d)
         ∧ d !! "credibility_score" = Some (VInt 0)
         ∧ d !! "verdict" = Some (VStr "Analysis Failed")
         ∧ d !! "confidence" = Some (VStr "Low")
         ∧ d !! "explanation"
           = Some (VStr "Could not complete analysis: Connection error.").
Proof.
  assert (Hf : internal_failure (loads_only very_high_doc VNone) client_down
                 "gpt-5-nano" diamond_claim
                 (Scraper._get_fallback_results diamond_claim)
                 (mk_exn (OtherException "APIConnectionError")
                    "Connection error.")).
  { eapply fail_model; [vm_compute; reflexivity | reflexivity]. }
  split; [exact Hf|].
  exact (proj2 (analyze_claim_never_raises _ client_down _ _ _) _ Hf).
Defined.

(** C8 on the prose answer of the specification. *)
Lemma parse_failure_fallback_witness :
  ∃ d, _parse_analysis (loads_only very_high_doc VNone) prose_answer
         = Return (VDict d)
    ∧ d !! "explanation" = Some (VStr prose_answer)
    ∧ d !! "credibility_score" = Some (VInt 5)
    ∧ d !! "verdict" = Some (VStr "Uncertain")
    ∧ d !! "confidence" = Some (VStr "Medium").
Proof.
  destruct (parse_failure_fallback (loads_only very_high_doc VNone)
              (client_says prose_answer) "gpt-5-nano" prose_answer
              (mk_exn JSONDecodeError
                 "Expecting value: line 1 column 1 (char 0)"))
    as (d & Hp & He & Hs & Hv & Hc & _); [reflexivity | reflexivity |].
  exists d. done.
Defined.

(** C1 as worded fails on the internal-failure path: with a model call
    that fails, the returned record has no [key_findings] (nor the two
    other list keys). *)
Lemma failure_record_lacks_list_keys :
  (∃ d, analyze_claim (loads_only very_high_doc VNone) client_down
          "gpt-5-nano" diamond_claim [] = Return (VDict d)
        ∧ d !! "key_findings" = None
        ∧ d !! "red_flags" = None
        ∧ d !! "supporting_evidence" = None)
  ∧ ¬ every_record_has_required_keys.
Proof.
  split.
  - eexists. split; [reflexivity|]. split_and!; reflexivity.
  - intros H.
    destruct (H (loads_only very_high_doc VNone) client_down "gpt-5-nano"
                diamond_claim []) as (d & Hd & Hk).
    assert (Hrun : analyze_claim (loads_only very_high_doc VNone) client_down
                     "gpt-5-nano" diamond_claim []
                   = Return (VDict (failure_record
                       (mk_exn (OtherException "APIConnectionError")
                          "Connection error.")))) by reflexivity.
    rewrite Hrun in Hd.
    assert (d = failure_record
                  (mk_exn (OtherException "APIConnectionError")
                     "Connection error.")) as -> by congruence.
    apply Forall_app in Hk as [_ Hk].
    apply Forall_cons in Hk as [[v Hv] _]. discriminate Hv.
Qed.

(** C4 as worded fails when the model supplies another confidence: the
    answer [{"confidence": "Very High"}] comes back with that value. *)
Lemma confidence_very_high_passes_through :
  (∃ d, analyze_claim
          (loads_only very_high_doc
             (VDict {[ "confidence" := VStr "Very High" ]}))
          (client_says very_high_doc) "gpt-5-nano" diamond_claim []
        = Return (VDict d)
        ∧ d !! "confidence" = Some (VStr "Very High"))
  ∧ ¬ every_confidence_is_a_level.
Proof.
  assert (Hrun : ∃ d, analyze_claim
          (loads_only very_high_doc
             (VDict {[ "confidence" := VStr "Very High" ]}))
          (client_says very_high_doc) "gpt-5-nano" diamond_claim []
        = Return (VDict d)
        ∧ d !! "confidence" = Some (VStr "Very High")).
  { eexists. split; [vm_compute; reflexivity | reflexivity]. }
  split; [exact Hrun|].
  intros H. destruct Hrun as (d & Hd & Hc).
  destruct (H _ _ _ _ _ _ Hd) as (c & Hc' & Hin).
  rewrite Hc in Hc'. injection Hc' as <-.
  unfold confidence_levels in Hin.
  repeat (apply elem_of_cons in Hin as [Hin|Hin]; [discriminate Hin|]).
  by apply elem_of_nil in Hin.
Qed.

End AnalyzeFacts.

(* ===================================================================== *)
(** * The scraper                                                         *)
(* ===================================================================== *)

Module ScraperFacts.

Import PyStr Spec Scraper ValidateFacts.

(** Both scraping loops stop appending once [limit] records are held. *)
Lemma google_loop_length query limit divs results :
  (Z.of_nat (length (google_loop query limit divs results))
   ≤ Z.max limit (Z.of_nat (length results)))%Z.
Proof.
  revert results. induction divs as [|div divs IH]; intros results;
    cbn [google_loop]; [lia|].
  destruct (Z.leb_spec limit (Z.of_nat (length results))) as [Hfull|Hroom];
    [lia|].
  repeat match goal with
         | |- context [if ?b then _ else _] => destruct b
         end;
    try (etrans; [apply IH|]; rewrite ?length_app; cbn [length]; lia).
Qed.

Lemma duckduckgo_loop_length query limit divs results :
  (Z.of_nat (length (duckduckgo_loop query limit divs results))
   ≤ Z.max limit (Z.of_nat (length results)))%Z.
Proof.
  revert results. induction divs as [|div divs IH]; intros results;
    cbn [duckduckgo_loop]; [lia|].
  destruct (Z.leb_spec limit (Z.of_nat (length results))) as [Hfull|Hroom];
    [lia|].
  destruct (find_a div "result__a") as [title_elem|];
    [|etrans; [apply IH|]; lia].
  match goal with
  | |- context [if ?b then _ else _] => destruct b
  end; (etrans; [apply IH|]; rewrite ?length_app; cbn [length]; lia).
Qed.

(** A list that is non-empty and no longer than [max limit 0] has between
    1 and [limit] elements. *)
Lemma bounded_nonempty {A} (l : list A) (limit : Z) :
  (Z.of_nat (length l) ≤ Z.max limit 0)%Z → nonempty l = true →
  (1 ≤ Z.of_nat (length l) ≤ limit)%Z.
Proof. destruct l; [done|]. cbn [length]. lia. Qed.

Section Search.

Variables api_key search_id : option string.
Variable customsearch_execute :
  option string → string → option string → Z
  → outcome (option (list (gmap string string))).
Variable requests_get : string → string → outcome http_response.
Variable requests_post : string → string → outcome http_response.
Variable soup_select : string → string → outcome (list node).
Variable soup_find_all_div : string → string → outcome (list node).

Abbreviation custom :=
  (_use_google_custom_search api_key search_id customsearch_execute).
Abbreviation google := (_search_google_simple requests_get soup_select).
Abbreviation duckduckgo :=
  (_search_duckduckgo requests_post soup_find_all_div).
Abbreviation run :=
  (search api_key search_id customsearch_execute requests_get requests_post
     soup_select soup_find_all_div).
Abbreviation cascade :=
  (fallback_cascade requests_get requests_post soup_select soup_find_all_div).

(** The two scraping sources never raise, and respect the limit. *)
Lemma search_google_simple_returns query limit :
  ∃ E, google query limit = Return E
       ∧ (Z.of_nat (length E) ≤ Z.max limit 0)%Z.
Proof.
  unfold _search_google_simple, try_except.
  destruct (requests_get _ query) as [response|e];
    rewrite ?bind_return, ?bind_raise; [|exists []; cbn; split; [done|lia]].
  destruct (negb _); [exists []; cbn; split; [done|lia]|].
  destruct (soup_select _ _) as [divs|e];
    rewrite ?bind_return, ?bind_raise; [|exists []; cbn; split; [done|lia]].
  eexists. split; [done|]. apply (google_loop_length query limit divs []).
Qed.

Lemma search_duckduckgo_returns query limit :
  ∃ E, duckduckgo query limit = Return E
       ∧ (Z.of_nat (length E) ≤ Z.max limit 0)%Z.
Proof.
  unfold _search_duckduckgo, try_except.
  destruct (requests_post _ query) as [response|e];
    rewrite ?bind_return, ?bind_raise; [|exists []; cbn; split; [done|lia]].
  destruct (negb _); [exists []; cbn; split; [done|lia]|].
  destruct (soup_find_all_div _ _) as [divs|e];
    rewrite ?bind_return, ?bind_raise; [|exists []; cbn; split; [done|lia]].
  eexists. split; [done|]. apply (duckduckgo_loop_length query limit divs []).
Qed.

Lemma cascade_result query limit results :
  (Z.of_nat (length results) ≤ Z.max limit 0)%Z →
  ∃ E, cascade query limit results = Return E
       ∧ ((1 ≤ Z.of_nat (length E) ≤ limit)%Z
          ∨ E = _get_fallback_results query).
Proof.
  intros Hres. unfold fallback_cascade.
  destruct (nonempty results) eqn:Hn; cbn [negb]; rewrite ?bind_return.
  { rewrite Hn. cbn [negb]. rewrite bind_return, Hn. cbn [negb].
    rewrite !bind_return. exists results. split; [done|].
    left. by apply bounded_nonempty. }
  destruct (search_google_simple_returns query limit) as (G & -> & HG).
  rewrite bind_return.
  destruct (nonempty G) eqn:HnG; cbn [negb]; rewrite ?bind_return.
  { rewrite HnG. cbn [negb]. rewrite !bind_return. exists G.
    split; [done|]. left. by apply bounded_nonempty. }
  destruct (search_duckduckgo_returns query limit) as (D & -> & HD).
  rewrite bind_return.
  destruct (nonempty D) eqn:HnD; cbn [negb]; rewrite !bind_return.
  - exists D. split; [done|]. left. by apply bounded_nonempty.
  - exists (_get_fallback_results query). split; [done|]. by right.
Qed.

(** [search] by the state of the credentials and the outcome of the
    custom-search source. *)
Lemma search_eq query limit :
  run query limit =
    if truthy api_key && truthy search_id then
      match custom query limit with
      | Return results => cascade query limit results
      | Raise e => Raise e
      end
    else read_local (A := list evidence) "results" None ≫= cascade query limit.
Proof.
  unfold search, fallback_cascade.
  destruct (truthy api_key && truthy search_id); [|done].
  destruct (custom query limit) as [results|e]; done.
Qed.

(** C2, the failing path. Without both credentials the local variable
    [results] of [search] is read before it is bound, and [search]
    raises [UnboundLocalError] whatever the other sources would do. *)
Lemma search_without_credentials query limit :
  truthy api_key && truthy search_id = false →
  ∃ e, run query limit = Raise e ∧ exn_cls e = UnboundLocalError.
Proof. intros H. rewrite search_eq, H. eexists. split; done. Qed.

(** An exception of the custom-search call escapes from [search]. *)
Lemma search_custom_search_error query limit e :
  truthy api_key && truthy search_id = true →
  customsearch_execute api_key query search_id limit = Raise e →
  run query limit = Raise e.
Proof.
  intros H He. rewrite search_eq, H.
  unfold _use_google_custom_search. by rewrite He.
Qed.

(** Non-empty results end the cascade at once. *)
Lemma cascade_nonempty query limit results :
  nonempty results = true → cascade query limit results = Return results.
Proof.
  intros Hn. unfold fallback_cascade. rewrite Hn. cbn [negb].
  rewrite bind_return, Hn. cbn [negb]. rewrite bind_return, Hn.
  cbn [negb]. by rewrite !bind_return.
Qed.

(** C5, amended. Every sequence [E] that [search] returns for a query and
    a limit has between 1 and [limit] records, or is the three-record
    placeholder sequence for that query, or is the list of all the items
    that the custom-search service returned, one record per item; that
    list is not empty, and nothing in the code bounds its length by
    [limit]. *)
Theorem search_result_size (query : string) (limit : Z)
    (E : list evidence) :
  search api_key search_id customsearch_execute requests_get requests_post
    soup_select soup_find_all_div query limit = Return E →
  (1 ≤ Z.of_nat (length E) ≤ limit)%Z
  ∨ (E = _get_fallback_results query ∧ length E = 3)
  ∨ (∃ items,
       customsearch_execute api_key query search_id limit
         = Return (Some items)
       ∧ items ≠ []
       ∧ E = (λ item : gmap string string,
                record (item !! "title") (item !! "link")
                  (item !! "snippet")) <$> items
       ∧ length E = length items).
Proof.
  rewrite search_eq.
  destruct (truthy api_key && truthy search_id); [|done].
  unfold _use_google_custom_search.
  destruct (customsearch_execute api_key query search_id limit)
    as [[[|item items]|]|e] eqn:Hx; rewrite ?bind_return, ?bind_raise;
    cbn [default from_option id]; [| | |done].
  - rewrite fmap_nil.
    destruct (cascade_result query limit []) as (E' & -> & HE');
      [cbn [length]; lia|].
    intros [= <-]. destruct HE' as [?| ->]; [by left | by right; left].
  - rewrite cascade_nonempty by done. intros [= <-].
    right; right. exists (item :: items).
    split_and!; [done | done | done |].
    cbn [length]. f_equal. apply length_fmap.
  - rewrite fmap_nil.
    destruct (cascade_result query limit []) as (E' & -> & HE');
      [cbn [length]; lia|].
    intros [= <-]. destruct HE' as [?| ->]; [by left | by right; left].
Qed.

End Search.

(** C2. With no API key and no search-engine identifier, [search] raises
    [UnboundLocalError] for every query and limit, whatever the network
    sources would answer. *)
Theorem search_unconfigured_raises customsearch_execute requests_get
    requests_post soup_select soup_find_all_div (query : string)
    (limit : Z) :
  ∃ e, search None None customsearch_execute requests_get requests_post
         soup_select soup_find_all_div query limit = Raise e
       ∧ exn_cls e = UnboundLocalError.
Proof. by apply search_without_credentials. Qed.

(** C5 on a run with both credentials set and no network for the
    scraping sources: the service has two results for a limit of 5. *)
Lemma search_result_size_witness :
  ∃ E, search (Some "key") (Some "cx") two_items no_network no_network
         no_network no_network diamond_claim 5 = Return E
       ∧ length E = 2
       ∧ ((1 ≤ Z.of_nat (length E) ≤ 5)%Z
          ∨ (E = _get_fallback_results diamond_claim ∧ length E = 3)
          ∨ (∃ items,
               two_items (Some "key") diamond_claim (Some "cx") 5
                 = Return (Some items)
               ∧ items ≠ []
               ∧ E = (λ item : gmap string string,
                        record (item !! "title") (item !! "link")
                          (item !! "snippet")) <$> items
               ∧ length E = length items)).
Proof.
  eexists. split; [vm_compute; reflexivity|]. split; [reflexivity|].
  apply (search_result_size (Some "key") (Some "cx") two_items no_network
           no_network no_network no_network diamond_claim 5).
  vm_compute. reflexivity.
Defined.

(** C5 as worded fails.  With both credentials set, a custom-search
    service that answers with four items is handed on in full: for a limit
    of 2, [search] returns four records, which are not the placeholder
    records. *)
Lemma untruncated_custom_search_exceeds_limit :
  (∃ E, search (Some "key") (Some "cx") four_items no_network no_network
          no_network no_network diamond_claim 2 = Return E
        ∧ length E = 4
        ∧ E ≠ _get_fallback_results diamond_claim)
  ∧ ¬ result_size_as_stated.
Proof.
  assert (Hrun : ∃ E, search (Some "key") (Some "cx") four_items no_network
          no_network no_network no_network diamond_claim 2 = Return E
        ∧ length E = 4).
  { eexists. split; [vm_compute; reflexivity | reflexivity]. }
  destruct Hrun as (E & HE & Hlen).
  assert (Hne : E ≠ _get_fallback_results diamond_claim).
  { intros ->. unfold _get_fallback_results in Hlen.
    cbn [length] in Hlen. discriminate Hlen. }
  split; [by exists E|].
  intros H.
  destruct (H _ _ _ _ _ _ _ _ _ _ HE) as [Hsize | Hfb]; [|done].
  rewrite Hlen in Hsize. lia.
Qed.

End ScraperFacts.

(* ===================================================================== *)
(** * Searching in strings                                                *)
(* ===================================================================== *)

Module FindFacts.

Import PyStr Spec.

Lemma app_nil_l s : "" +:+ s = s.
Proof. reflexivity. Qed.

Lemma app_cons c s t : String c s +:+ t = String c (s +:+ t).
Proof. reflexivity. Qed.

Lemma app_nil_r s : s +:+ "" = s.
Proof. induction s as [|c s IH]; [done|]. by rewrite app_cons, IH. Qed.

Lemma app_assoc s t u : (s +:+ t) +:+ u = s +:+ t +:+ u.
Proof. induction s as [|c s IH]; [done|]. by rewrite !app_cons, IH. Qed.

Lemma length_app s t :
  String.length (s +:+ t) = String.length s + String.length t.
Proof.
  induction s as [|c s IH]; [done|]. rewrite app_cons. cbn. by rewrite IH.
Qed.

Lemma drop_app pre s : drop (String.length pre) (pre +:+ s) = s.
Proof. induction pre as [|c pre IH]; [by destruct s|]. by rewrite app_cons. Qed.

Lemma take_app s t : take (String.length s) (s +:+ t) = s.
Proof.
  induction s as [|c s IH]; [by destruct t|]. rewrite app_cons. cbn.
  by rewrite IH.
Qed.

Lemma prefix_spec sub s :
  String.prefix sub s = true ↔ ∃ post, s = sub +:+ post.
Proof.
  revert s. induction sub as [|a sub IH]; intros s.
  - split; [exists s; done|]. by destruct s.
  - destruct s as [|b s]; cbn.
    + split; [done | intros (post & H); discriminate H].
    + destruct (ascii_dec a b) as [->|Hne].
      * rewrite IH. split; intros (post & H); exists post.
        -- by rewrite app_cons, H.
        -- rewrite app_cons in H. by injection H.
      * split; [done|]. intros (post & H). rewrite app_cons in H.
        injection H as H1 _. by destruct Hne.
Qed.

Lemma occurs_at_0 sub s : occurs_at sub s 0 ↔ String.prefix sub s = true.
Proof.
  rewrite prefix_spec. split.
  - intros (pre & post & -> & Hlen). destruct pre; [|done]. by exists post.
  - intros (post & ->). by exists "", post.
Qed.

Lemma occurs_at_S sub c s j :
  occurs_at sub (String c s) (S j) ↔ occurs_at sub s j.
Proof.
  split.
  - intros (pre & post & H & Hlen). destruct pre as [|a pre]; [done|].
    rewrite app_cons in H. injection H as _ H. injection Hlen as Hlen.
    by exists pre, post.
  - intros (pre & post & -> & Hlen). exists (String c pre), post.
    rewrite app_cons. cbn. auto.
Qed.

Lemma occurs_at_empty sub j : ¬ occurs_at sub "" (S j).
Proof. intros (pre & post & H & Hlen). by destruct pre. Qed.

Lemma find_first_first_at sub s i :
  find_first sub s = Some i → first_at sub s i.
Proof.
  revert i. induction s as [|c s IH]; intros i; cbn [find_first];
    destruct (String.prefix sub _) eqn:Hp; try done.
  - intros [= <-]. split; [by apply occurs_at_0 | lia].
  - intros [= <-]. split; [by apply occurs_at_0 | lia].
  - destruct (find_first sub s) as [j|]; [|done]. intros [= <-].
    destruct (IH j eq_refl) as [Hocc Hmin]. split.
    + by apply occurs_at_S.
    + intros [|k] Hk Hk'.
      * apply occurs_at_0 in Hk'. congruence.
      * apply occurs_at_S in Hk'. apply (Hmin k); [lia | done].
Qed.

Lemma find_first_none sub s i : find_first sub s = None → ¬ occurs_at sub s i.
Proof.
  revert i. induction s as [|c s IH]; intros i; cbn [find_first];
    destruct (String.prefix sub _) eqn:Hp; try done.
  - intros _ Hocc. destruct i; [|by eapply occurs_at_empty].
    apply occurs_at_0 in Hocc. congruence.
  - destruct (find_first sub s) as [j|] eqn:Hf; [done|]. intros _ Hocc.
    destruct i as [|i].
    + apply occurs_at_0 in Hocc. congruence.
    + apply occurs_at_S in Hocc. by apply (IH i).
Qed.

Lemma first_at_unique sub s i j : first_at sub s i → first_at sub s j → i = j.
Proof.
  intros [Hi Hmi] [Hj Hmj].
  destruct (Nat.lt_trichotomy i j) as [Hlt|[->|Hlt]]; [|done|].
  - by destruct (Hmj i Hlt).
  - by destruct (Hmi j Hlt).
Qed.

(** [find_first] computes the first occurrence. *)
Lemma find_first_spec sub s i : find_first sub s = Some i ↔ first_at sub s i.
Proof.
  split; [apply find_first_first_at|]. intros Hi.
  destruct (find_first sub s) as [j|] eqn:Hf.
  - f_equal. eapply first_at_unique; [|done]. by apply find_first_first_at.
  - destruct Hi as [Hi _]. by destruct (find_first_none _ _ i Hf).
Qed.

Lemma find_last_last_at sub s i : find_last sub s = Some i → last_at sub s i.
Proof.
  revert i. induction s as [|c s IH]; intros i; cbn [find_last].
  - destruct (String.prefix sub "") eqn:Hp; [|done]. intros [= <-].
    split; [by apply occurs_at_0|]. intros [|j] Hj; [lia|].
    apply occurs_at_empty.
  - destruct (find_last sub s) as [j|] eqn:Hf.
    + intros [= <-]. destruct (IH j eq_refl) as [Hocc Hmax]. split.
      * by apply occurs_at_S.
      * intros [|k] Hk; [lia|]. rewrite occurs_at_S. apply Hmax. lia.
    + destruct (String.prefix sub (String c s)) eqn:Hp; [|done].
      intros [= <-]. split; [by apply occurs_at_0|].
      intros [|k] Hk Hocc; [lia|]. apply occurs_at_S in Hocc.
      clear IH Hp Hk. revert k Hocc Hf.
      induction s as [|a s IHs]; intros k Hocc; cbn [find_last].
      * destruct k; [|by destruct (occurs_at_empty _ _ Hocc)].
        apply occurs_at_0 in Hocc. by rewrite Hocc.
      * destruct (find_last sub s) as [?|] eqn:Hf'; [done|].
        destruct k as [|k].
        -- apply occurs_at_0 in Hocc. by rewrite Hocc.
        -- apply occurs_at_S in Hocc. intros _. by apply (IHs k).
Qed.

Lemma find_last_none sub s i : find_last sub s = None → ¬ occurs_at sub s i.
Proof.
  revert i. induction s as [|a s IHs]; intros k; cbn [find_last].
  - destruct (String.prefix sub "") eqn:Hp; [done|]. intros _ Hocc.
    destruct k; [|by destruct (occurs_at_empty _ _ Hocc)].
    apply occurs_at_0 in Hocc. congruence.
  - destruct (find_last sub s) as [?|] eqn:Hf'; [done|].
    destruct (String.prefix sub (String a s)) eqn:Hp; [done|].
    intros _ Hocc. destruct k as [|k].
    + apply occurs_at_0 in Hocc. congruence.
    + apply occurs_at_S in Hocc. by apply (IHs k).
Qed.

Lemma last_at_unique sub s i j : last_at sub s i → last_at sub s j → i = j.
Proof.
  intros [Hi Hmi] [Hj Hmj].
  destruct (Nat.lt_trichotomy i j) as [Hlt|[->|Hlt]]; [|done|].
  - by destruct (Hmi j Hlt).
  - by destruct (Hmj i Hlt).
Qed.

(** [find_last] computes the last occurrence. *)
Lemma find_last_spec sub s i : find_last sub s = Some i ↔ last_at sub s i.
Proof.
  split; [apply find_last_last_at|]. intros Hi.
  destruct (find_last sub s) as [j|] eqn:Hf.
  - f_equal. eapply last_at_unique; [|done]. by apply find_last_last_at.
  - destruct Hi as [Hi _]. by destruct (find_last_none _ _ i Hf).
Qed.

(** [sub in s]. *)
Lemma contains_spec sub s : contains sub s = true ↔ occurs sub s.
Proof.
  unfold contains. rewrite bool_decide_eq_true. split.
  - intros [i Hi]. exists i. by apply find_first_first_at.
  - intros [i Hi]. destruct (find_first sub s) eqn:Hf; [eauto|].
    by destruct (find_first_none _ _ i Hf).
Qed.

Lemma contains_false sub s : contains sub s = false ↔ ¬ occurs sub s.
Proof.
  rewrite <- contains_spec. by destruct (contains sub s).
Qed.

End FindFacts.

(* ===================================================================== *)
(** * Extraction of the JSON text                                         *)
(* ===================================================================== *)

Module ExtractFacts.

Import PyStr Spec Analyzer FindFacts.

Lemma find_zero s sub i : first_at sub s i → find s sub 0 = Z.of_nat i.
Proof.
  intros Hi. apply find_first_spec in Hi. unfold find, norm_index.
  destruct (Z.ltb_spec (Z.of_nat (String.length s)) 0) as [Hneg|_]; [lia|].
  cbn [Z.ltb Z.compare].
  replace (Z.to_nat (Z.min 0 (Z.of_nat (String.length s)))) with 0 by lia.
  cbn [drop]. by rewrite Hi.
Qed.

Lemma find_from s sub st i :
  st ≤ String.length s → first_at sub (drop st s) i →
  find s sub (Z.of_nat st) = Z.of_nat (st + i).
Proof.
  intros Hst Hi. apply find_first_spec in Hi. unfold find, norm_index.
  destruct (Z.ltb_spec (Z.of_nat (String.length s)) (Z.of_nat st)); [lia|].
  destruct (Z.ltb_spec (Z.of_nat st) 0); [lia|].
  replace (Z.to_nat (Z.min (Z.of_nat st) (Z.of_nat (String.length s))))
    with st by lia.
  by rewrite Hi.
Qed.

Lemma rfind_last s sub i : last_at sub s i → rfind s sub = Z.of_nat i.
Proof. intros Hi. apply find_last_spec in Hi. unfold rfind. by rewrite Hi. Qed.

Lemma slice_nat s a b :
  a ≤ String.length s → b ≤ String.length s →
  slice s (Z.of_nat a) (Z.of_nat b) = take (b - a) (drop a s).
Proof.
  intros Ha Hb. unfold slice, norm_index.
  destruct (Z.ltb_spec (Z.of_nat a) 0); [lia|].
  destruct (Z.ltb_spec (Z.of_nat b) 0); [lia|].
  f_equal; [|f_equal]; lia.
Qed.

Lemma occurs_at_char_in c s j : occurs_at (String c "") s j → char_in c s.
Proof.
  intros (pre & post & -> & _). unfold char_in.
  induction pre as [|a pre IH]; [by left | by right].
Qed.

Lemma occurs_at_char_head c a s :
  occurs_at (String c "") (String a s) 0 → a = c.
Proof.
  intros (pre & post & H & Hlen). destruct pre; [|done].
  rewrite app_nil_l, app_cons in H. by injection H.
Qed.

Lemma occurs_at_app sub pre post :
  occurs_at sub (pre +:+ sub +:+ post) (String.length pre).
Proof. by exists pre, post. Qed.

(** The first occurrence of a character that does not occur in [pre]. *)
Lemma char_first_at c pre rest :
  ¬ char_in c pre →
  first_at (String c "") (pre +:+ String c rest) (String.length pre).
Proof.
  intros Hpre. split; [apply (occurs_at_app (String c "") pre rest)|].
  induction pre as [|a pre IH]; intros j Hj; cbn in Hj; [lia|].
  rewrite app_cons. destruct j as [|j].
  - intros Hocc. apply occurs_at_char_head in Hocc as ->.
    apply Hpre. by left.
  - rewrite occurs_at_S. apply IH; [|lia].
    intros Hin. apply Hpre. by right.
Qed.

(** The last occurrence of a character that does not occur in [post]. *)
Lemma char_last_at c init post :
  ¬ char_in c post →
  last_at (String c "") (init +:+ String c post) (String.length init).
Proof.
  intros Hpost. split; [apply (occurs_at_app (String c "") init post)|].
  induction init as [|a init IH]; intros j Hj; cbn in Hj.
  - destruct j as [|j]; [lia|]. rewrite app_nil_l, occurs_at_S.
    intros Hocc. by apply Hpost, (occurs_at_char_in _ _ j).
  - destruct j as [|j]; [lia|]. rewrite app_cons, occurs_at_S.
    apply IH. lia.
Qed.

Lemma char_in_app c s t : char_in c (s +:+ t) ↔ char_in c s ∨ char_in c t.
Proof.
  unfold char_in. induction s as [|a s IH]; [rewrite app_nil_l; cbn; tauto|].
  rewrite app_cons. cbn. rewrite IH. tauto.
Qed.

(** Alternative (a): a closed [```json] fence. *)
Lemma extract_fenced text pre content post :
  text = pre +:+ json_marker +:+ content +:+ fence +:+ post →
  first_at json_marker text (String.length pre) →
  first_at fence (content +:+ fence +:+ post) (String.length content) →
  extract_json_str text = strip content.
Proof.
  intros Htext Hmarker Hfence. unfold extract_json_str.
  unfold json_marker, fence in *.
  assert (Hc : contains "```json" text = true).
  { apply contains_spec. exists (String.length pre). apply Hmarker. }
  rewrite Hc. rewrite (find_zero _ _ _ Hmarker).
  assert (Hlen : String.length text
                 = String.length pre + 7 + String.length content + 3
                   + String.length post).
  { rewrite Htext, !length_app. cbn. lia. }
  assert (Hdrop : drop (String.length pre + 7) text
                  = content +:+ "```" +:+ post).
  { rewrite Htext, <- (app_assoc pre).
    replace (String.length pre + 7)
      with (String.length (pre +:+ "```json"))
      by (rewrite length_app; done).
    apply drop_app. }
  replace (Z.of_nat (String.length pre) + 7)%Z
    with (Z.of_nat (String.length pre + 7)) by lia.
  rewrite (find_from text "```" (String.length pre + 7)
             (String.length content)); [|lia|by rewrite Hdrop].
  rewrite slice_nat by lia. rewrite Hdrop.
  replace (String.length pre + 7 + String.length content
           - (String.length pre + 7)) with (String.length content) by lia.
  by rewrite take_app.
Qed.

Lemma no_marker text :
  ¬ occurs json_marker text → contains "```json" text = false.
Proof. apply contains_false. Qed.

(** Alternative (b): no marker, and an opening brace before the last
    closing brace. *)
Lemma extract_braces text pre mid post :
  ¬ occurs json_marker text →
  text = pre +:+ "{" +:+ mid +:+ "}" +:+ post →
  ¬ char_in "{" pre → ¬ char_in "}" post →
  extract_json_str text = "{" +:+ mid +:+ "}".
Proof.
  intros Hno Htext Hpre Hpost. unfold extract_json_str.
  rewrite (no_marker _ Hno).
  assert (Hfirst : first_at "{" text (String.length pre)).
  { rewrite Htext. by apply char_first_at. }
  assert (Hlast : last_at "}" text (String.length (pre +:+ "{" +:+ mid))).
  { rewrite Htext.
    replace (pre +:+ "{" +:+ mid +:+ "}" +:+ post)
      with ((pre +:+ "{" +:+ mid) +:+ "}" +:+ post)
      by (by rewrite !app_assoc).
    by apply char_last_at. }
  assert (Ho : contains "{" text = true).
  { apply contains_spec. eexists. apply Hfirst. }
  assert (Hc : contains "}" text = true).
  { apply contains_spec. eexists. apply Hlast. }
  rewrite Ho, Hc. cbn [andb].
  rewrite (find_zero _ _ _ Hfirst), (rfind_last _ _ _ Hlast).
  rewrite !length_app. cbn [String.length].
  assert (Hlen : String.length text
                 = String.length pre + 1 + String.length mid + 1
                   + String.length post).
  { rewrite Htext, !length_app. cbn. lia. }
  replace (Z.of_nat (String.length pre + (1 + String.length mid)) + 1)%Z
    with (Z.of_nat (String.length pre + String.length mid + 2)) by lia.
  rewrite slice_nat by lia.
  rewrite Htext, drop_app.
  replace (String.length pre + String.length mid + 2 - String.length pre)
    with (String.length ("{" +:+ mid +:+ "}"))
    by (rewrite !length_app; cbn; lia).
  replace ("{" +:+ mid +:+ "}" +:+ post)
    with (("{" +:+ mid +:+ "}") +:+ post) by (by rewrite !app_assoc).
  apply take_app.
Qed.

(** No marker, and every closing brace before the first opening brace:
    the slice is empty. *)
Lemma extract_braces_crossed text pre mid post :
  ¬ occurs json_marker text →
  text = pre +:+ "}" +:+ mid +:+ "{" +:+ post →
  ¬ char_in "{" (pre +:+ "}" +:+ mid) →
  ¬ char_in "}" (mid +:+ "{" +:+ post) →
  extract_json_str text = "".
Proof.
  intros Hno Htext Hpre Hpost. unfold extract_json_str.
  rewrite (no_marker _ Hno).
  assert (Hfirst : first_at "{" text (String.length (pre +:+ "}" +:+ mid))).
  { rewrite Htext.
    replace (pre +:+ "}" +:+ mid +:+ "{" +:+ post)
      with ((pre +:+ "}" +:+ mid) +:+ "{" +:+ post)
      by (by rewrite !app_assoc).
    by apply char_first_at. }
  assert (Hlast : last_at "}" text (String.length pre)).
  { rewrite Htext. by apply char_last_at. }
  assert (Ho : contains "{" text = true).
  { apply contains_spec. eexists. apply Hfirst. }
  assert (Hc : contains "}" text = true).
  { apply contains_spec. eexists. apply Hlast. }
  rewrite Ho, Hc. cbn [andb].
  rewrite (find_zero _ _ _ Hfirst), (rfind_last _ _ _ Hlast).
  rewrite !length_app. cbn [String.length].
  assert (Hlen : String.length text
                 = String.length pre + 1 + String.length mid + 1
                   + String.length post).
  { rewrite Htext, !length_app. cbn. lia. }
  unfold slice, norm_index.
  destruct (Z.ltb_spec (Z.of_nat (String.length pre + (1 + String.length mid))) 0);
    [lia|].
  destruct (Z.ltb_spec (Z.of_nat (String.length pre) + 1) 0); [lia|].
  match goal with
  | |- take (Z.to_nat ?n) _ = _ => replace (Z.to_nat n) with 0 by lia
  end.
  done.
Qed.

(** Alternative (c): no marker and not both braces. *)
Lemma extract_verbatim text :
  ¬ occurs json_marker text →
  ¬ (occurs "{" text ∧ occurs "}" text) →
  extract_json_str text = text.
Proof.
  intros Hno Hb. unfold extract_json_str. rewrite (no_marker _ Hno).
  destruct (contains "{" text) eqn:Ho; [|done].
  destruct (contains "}" text) eqn:Hc; [|done].
  destruct Hb. split; by apply contains_spec.
Qed.

(** X24. The text handed to [json.loads].  When the first [```json]
    marker is followed by a fence, it is the content between that marker
    and the next fence, stripped of surrounding whitespace.  When no
    marker occurs and both braces occur, it is the span from the first
    opening brace to the last closing brace, which is empty when every
    closing brace comes before the first opening one.  When no marker
    occurs and a brace is missing, it is the whole text.  The fenced
    example of the specification yields its inner object. *)
Theorem extract_json_str_priority :
  (∀ text pre content post,
      text = pre +:+ json_marker +:+ content +:+ fence +:+ post →
      first_at json_marker text (String.length pre) →
      first_at fence (content +:+ fence +:+ post) (String.length content) →
      extract_json_str text = strip content)
  ∧ (∀ text pre mid post,
      ¬ occurs json_marker text →
      text = pre +:+ "{" +:+ mid +:+ "}" +:+ post →
      ¬ char_in "{" pre → ¬ char_in "}" post →
      extract_json_str text = "{" +:+ mid +:+ "}")
  ∧ (∀ text pre mid post,
      ¬ occurs json_marker text →
      text = pre +:+ "}" +:+ mid +:+ "{" +:+ post →
      ¬ char_in "{" (pre +:+ "}" +:+ mid) →
      ¬ char_in "}" (mid +:+ "{" +:+ post) →
      extract_json_str text = "")
  ∧ (∀ text,
      ¬ occurs json_marker text →
      ¬ (occurs "{" text ∧ occurs "}" text) →
      extract_json_str text = text)
  ∧ extract_json_str fenced_example = inner_object.
Proof.
  split_and!.
  - apply extract_fenced.
  - apply extract_braces.
  - apply extract_braces_crossed.
  - apply extract_verbatim.
  - reflexivity.
Qed.

(** X24 on the fenced example of the specification. *)
Lemma extract_json_str_priority_witness :
  extract_json_str fenced_example = strip (nl +:+ inner_object +:+ nl)
  ∧ strip (nl +:+ inner_object +:+ nl) = inner_object.
Proof.
  split; [|reflexivity].
  destruct extract_json_str_priority as (Hfenced & _).
  apply (Hfenced fenced_example "" (nl +:+ inner_object +:+ nl) "").
  - reflexivity.
  - apply find_first_spec. vm_compute. reflexivity.
  - apply find_first_spec. vm_compute. reflexivity.
Defined.

(** C7, the failing input.  In [unclosed_example] the [```json] marker
    occurs and no fence follows it, so there is no content between the
    marker and a next fence; the span from the first opening brace to the
    last closing brace is the inner object.  The text handed to
    [json.loads] is neither: it is what follows the marker without its
    last character, here the inner object without its closing brace. *)
Theorem unclosed_fence_drops_last_character :
  occurs json_marker unclosed_example
  ∧ (¬ ∃ s, fenced_content unclosed_example s)
  ∧ brace_span unclosed_example inner_object
  ∧ extract_json_str unclosed_example +:+ "}" = inner_object
  ∧ extract_json_str unclosed_example ≠ inner_object
  ∧ ¬ chosen_as_stated unclosed_example (extract_json_str unclosed_example)
  ∧ ¬ extraction_as_stated.
Proof.
  assert (Hocc : occurs json_marker unclosed_example).
  { apply contains_spec. vm_compute. reflexivity. }
  assert (Hnone : ¬ ∃ s, fenced_content unclosed_example s).
  { intros (s & pre & post & Heq & _).
    assert (Hlast : last_at fence unclosed_example 0).
    { apply find_last_spec. vm_compute. reflexivity. }
    destruct Hlast as [_ Hlast].
    apply (Hlast (String.length (pre +:+ json_marker +:+ s))).
    - rewrite !length_app. cbn. lia.
    - exists (pre +:+ json_marker +:+ s), post. split; [|done].
      by rewrite Heq, !app_assoc. }
  assert (Hchosen : ¬ chosen_as_stated unclosed_example
                        (extract_json_str unclosed_example)).
  { intros [[_ Hf]|[[Hno _]|[Hno _]]].
    - apply Hnone. eauto.
    - by apply Hno.
    - by apply Hno. }
  split_and!; [done | done | | reflexivity | by vm_compute | done |].
  - exists (json_marker +:+ nl),
      (dq +:+ "credibility_score" +:+ dq +:+ ": 8, "
       +:+ dq +:+ "verdict" +:+ dq +:+ ":" +:+ dq +:+ "Likely True" +:+ dq),
      "".
    split_and!; [reflexivity | | | reflexivity].
    + unfold char_in. vm_compute. intros H.
      repeat (destruct H as [H|H]; [discriminate H|]). done.
    + unfold char_in. vm_compute. by intros H.
  - intros H. apply Hchosen, H.
Qed.

End ExtractFacts.

(* ===================================================================== *)
(** * The scraping sources, block by block                                *)
(* ===================================================================== *)

Module SourceFacts.

Import Spec Scraper Coverage ValidateFacts.

Lemma omap_cons_Some {A B} (f : A → option B) x y l :
  f x = Some y → omap f (x :: l) = y :: omap f l.
Proof. intros H. cbn. by rewrite H. Qed.

Lemma omap_cons_None {A B} (f : A → option B) x l :
  f x = None → omap f (x :: l) = omap f l.
Proof. intros H. cbn. by rewrite H. Qed.

(** One turn of the Google loop, by what the block contributes. *)
Lemma google_loop_step query limit div divs results :
  (Z.of_nat (length results) < limit)%Z →
  google_loop query limit (div :: divs) results =
    google_loop query limit divs
      (results ++ option_list (google_record query div)).
Proof.
  intros Hroom. cbn [google_loop].
  destruct (Z.leb_spec limit (Z.of_nat (length results))); [lia|].
  unfold google_record.
  destruct (truthy (get_text <$> first_match div _)); cbn [negb andb].
  - destruct (truthy _ && PyStr.contains _ _); cbn [option_list];
      by rewrite ?app_nil_r.
  - cbn [option_list]. by rewrite app_nil_r.
Qed.

Lemma google_loop_closed query limit divs results :
  google_loop query limit divs results =
    results ++ take (Z.to_nat limit - length results)
                 (omap (google_record query) divs).
Proof.
  revert results. induction divs as [|div divs IH]; intros results.
  - cbn [google_loop]. symmetry.
    replace (take _ _) with (@nil evidence); [apply app_nil_r|].
    by destruct (Z.to_nat limit - length results).
  - destruct (Z.leb_spec limit (Z.of_nat (length results))) as [Hfull|Hroom].
    + cbn [google_loop].
      destruct (Z.leb_spec limit (Z.of_nat (length results))); [|lia].
      replace (Z.to_nat limit - length results) with 0 by lia.
      by rewrite take_0, app_nil_r.
    + rewrite google_loop_step, IH by done.
      destruct (google_record query div) as [r|] eqn:Hr.
      * rewrite (omap_cons_Some _ _ _ _ Hr). cbn [option_list].
        rewrite length_app. cbn [length].
        replace (Z.to_nat limit - length results)
          with (S (Z.to_nat limit - (length results + 1))) by lia.
        cbn [take]. by rewrite <- app_assoc.
      * rewrite (omap_cons_None _ _ _ Hr). cbn [option_list].
        by rewrite app_nil_r.
Qed.

Lemma duckduckgo_loop_step query limit div divs results :
  (Z.of_nat (length results) < limit)%Z →
  duckduckgo_loop query limit (div :: divs) results =
    duckduckgo_loop query limit divs
      (results ++ option_list (duckduckgo_record query div)).
Proof.
  intros Hroom. cbn [duckduckgo_loop].
  destruct (Z.leb_spec limit (Z.of_nat (length results))); [lia|].
  unfold duckduckgo_record.
  destruct (find_a div "result__a") as [title_elem|];
    [|cbn [option_list]; by rewrite app_nil_r].
  destruct (truthy _ && truthy _); cbn [option_list]; by rewrite ?app_nil_r.
Qed.

Lemma duckduckgo_loop_closed query limit divs results :
  duckduckgo_loop query limit divs results =
    results ++ take (Z.to_nat limit - length results)
                 (omap (duckduckgo_record query) divs).
Proof.
  revert results. induction divs as [|div divs IH]; intros results.
  - cbn [duckduckgo_loop]. symmetry.
    replace (take _ _) with (@nil evidence); [apply app_nil_r|].
    by destruct (Z.to_nat limit - length results).
  - destruct (Z.leb_spec limit (Z.of_nat (length results))) as [Hfull|Hroom].
    + cbn [duckduckgo_loop].
      destruct (Z.leb_spec limit (Z.of_nat (length results))); [|lia].
      replace (Z.to_nat limit - length results) with 0 by lia.
      by rewrite take_0, app_nil_r.
    + rewrite duckduckgo_loop_step, IH by done.
      destruct (duckduckgo_record query div) as [r|] eqn:Hr.
      * rewrite (omap_cons_Some _ _ _ _ Hr). cbn [option_list].
        rewrite length_app. cbn [length].
        replace (Z.to_nat limit - length results)
          with (S (Z.to_nat limit - (length results + 1))) by lia.
        cbn [take]. by rewrite <- app_assoc.
      * rewrite (omap_cons_None _ _ _ Hr). cbn [option_list].
        by rewrite app_nil_r.
Qed.

(** What a block contributes is a well-formed record. *)
Lemma google_record_filled query div r :
  google_record query div = Some r →
  filled (r !! "title") ∧ filled (r !! "snippet")
  ∧ ∃ link, r !! "link" = Some (Some link) ∧ link ≠ ""
            ∧ occurs "http" link.
Proof.
  unfold google_record.
  destruct (get_text <$> first_match div _) as [title|]; [|done].
  destruct (_ <$> select_one div "a") as [link|];
    [|cbn; by rewrite andb_false_r].
  cbn [truthy default from_option id].
  destruct (bool_decide_reflect (title = "")) as [|Ht]; [done|].
  destruct (bool_decide_reflect (link = "")) as [|Hl]; [done|].
  cbn [negb andb].
  destruct (PyStr.contains "http" link) eqn:Hc; [|done].
  intros [= <-]. split_and!.
  - by exists title.
  - eexists. split; [reflexivity|]. unfold str_or.
    case_bool_decide; [intros H'; discriminate H' | done].
  - exists link. split_and!; [done..|]. by apply FindFacts.contains_spec.
Qed.

Lemma duckduckgo_record_filled query div r :
  duckduckgo_record query div = Some r →
  filled (r !! "title") ∧ filled (r !! "link") ∧ filled (r !! "snippet").
Proof.
  unfold duckduckgo_record.
  destruct (find_a div "result__a") as [title_elem|]; [|done].
  cbn [truthy].
  destruct (bool_decide_reflect (get_text title_elem = "")) as [|Ht];
    [done|].
  destruct (bool_decide_reflect (default "" (href title_elem) = ""))
    as [|Hl]; [done|].
  cbn [negb andb]. intros [= <-]. split_and!.
  - by eexists.
  - by eexists.
  - eexists. split; [reflexivity|]. unfold str_or.
    case_bool_decide; [intros H'; discriminate H' | done].
Qed.

Section Sources.

Variable requests_get : string → string → outcome http_response.
Variable requests_post : string → string → outcome http_response.
Variable soup_select : string → string → outcome (list node).
Variable soup_find_all_div : string → string → outcome (list node).

(** [_search_google_simple] in one equation. *)
Lemma search_google_simple_eq query limit :
  _search_google_simple requests_get soup_select query limit =
    Return
      match requests_get "https://www.google.com/search" query with
      | Return response =>
          if (status_code response =? 200)%Z then
            match soup_select (text response)
                    "div.g, div.tF2Cxc, div.kvH3mc" with
            | Return divs =>
                take (Z.to_nat limit) (omap (google_record query) divs)
            | Raise _ => []
            end
          else []
      | Raise _ => []
      end.
Proof.
  unfold _search_google_simple, try_except.
  destruct (requests_get _ query) as [response|e];
    rewrite ?bind_return, ?bind_raise; [|done].
  destruct (status_code response =? 200)%Z; cbn [negb]; [|done].
  destruct (soup_select _ _) as [divs|e];
    rewrite ?bind_return, ?bind_raise; [|done].
  rewrite google_loop_closed. cbn [length app]. by rewrite Nat.sub_0_r.
Qed.

(** [_search_duckduckgo] in one equation. *)
Lemma search_duckduckgo_eq query limit :
  _search_duckduckgo requests_post soup_find_all_div query limit =
    Return
      match requests_post "https://html.duckduckgo.com/html/" query with
      | Return response =>
          if (status_code response =? 200)%Z then
            match soup_find_all_div (text response) "result" with
            | Return divs =>
                take (Z.to_nat limit) (omap (duckduckgo_record query) divs)
            | Raise _ => []
            end
          else []
      | Raise _ => []
      end.
Proof.
  unfold _search_duckduckgo, try_except.
  destruct (requests_post _ query) as [response|e];
    rewrite ?bind_return, ?bind_raise; [|done].
  destruct (status_code response =? 200)%Z; cbn [negb]; [|done].
  destruct (soup_find_all_div _ _) as [divs|e];
    rewrite ?bind_return, ?bind_raise; [|done].
  rewrite duckduckgo_loop_closed. cbn [length app]. by rewrite Nat.sub_0_r.
Qed.

(** X1. When the Google page is fetched with status 200 and parsed,
    [_search_google_simple] returns the records of the first [limit]
    blocks that have a non-empty heading and an anchor whose address
    contains "http", in document order; blocks that do not qualify are
    skipped without counting towards the limit. *)
Theorem search_google_simple_blocks (query : string) (limit : Z)
    (response : http_response) (divs : list node) :
  requests_get "https://www.google.com/search" query = Return response →
  status_code response = 200%Z →
  soup_select (text response) "div.g, div.tF2Cxc, div.kvH3mc"
    = Return divs →
  _search_google_simple requests_get soup_select query limit
    = Return (take (Z.to_nat limit) (omap (google_record query) divs)).
Proof.
  intros Hget Hok Hsel. rewrite search_google_simple_eq, Hget, Hok, Hsel.
  done.
Qed.

(** X2. When the DuckDuckGo page is fetched with status 200 and parsed,
    [_search_duckduckgo] returns the records of the first [limit] result
    blocks that have a title anchor with non-empty text and address, in
    document order. *)
Theorem search_duckduckgo_blocks (query : string) (limit : Z)
    (response : http_response) (divs : list node) :
  requests_post "https://html.duckduckgo.com/html/" query
    = Return response →
  status_code response = 200%Z →
  soup_find_all_div (text response) "result" = Return divs →
  _search_duckduckgo requests_post soup_find_all_div query limit
    = Return (take (Z.to_nat limit) (omap (duckduckgo_record query) divs)).
Proof.
  intros Hpost Hok Hsel.
  rewrite search_duckduckgo_eq, Hpost, Hok, Hsel. done.
Qed.

(** X3. Both scraping sources turn every failure into an empty result: a
    request that raises, a status other than 200, or a parser that raises
    all give [[]], and nothing is raised to the caller. *)
Theorem scraping_failure_is_empty (query : string) (limit : Z) :
  ((∀ e, requests_get "https://www.google.com/search" query = Raise e →
         _search_google_simple requests_get soup_select query limit
           = Return [])
   ∧ (∀ response,
        requests_get "https://www.google.com/search" query
          = Return response →
        status_code response ≠ 200%Z
        ∨ (∃ e, soup_select (text response) "div.g, div.tF2Cxc, div.kvH3mc"
                  = Raise e) →
        _search_google_simple requests_get soup_select query limit
          = Return []))
  ∧ ((∀ e, requests_post "https://html.duckduckgo.com/html/" query
             = Raise e →
           _search_duckduckgo requests_post soup_find_all_div query limit
             = Return [])
     ∧ (∀ response,
          requests_post "https://html.duckduckgo.com/html/" query
            = Return response →
          status_code response ≠ 200%Z
          ∨ (∃ e, soup_find_all_div (text response) "result" = Raise e) →
          _search_duckduckgo requests_post soup_find_all_div query limit
            = Return [])).
Proof.
  split; split.
  - intros e He. by rewrite search_google_simple_eq, He.
  - intros response Hr [Hs|[e He]]; rewrite search_google_simple_eq, Hr.
    + by apply Z.eqb_neq in Hs as ->.
    + rewrite He. by destruct (_ =? _)%Z.
  - intros e He. by rewrite search_duckduckgo_eq, He.
  - intros response Hr [Hs|[e He]]; rewrite search_duckduckgo_eq, Hr.
    + by apply Z.eqb_neq in Hs as ->.
    + rewrite He. by destruct (_ =? _)%Z.
Qed.

(** X4. Every record that [_search_google_simple] returns has a non-empty
    title, a non-empty link that contains "http", and a non-empty snippet
    (the placeholder text when the block has none). *)
Theorem search_google_simple_records (query : string) (limit : Z)
    (E : list evidence) :
  _search_google_simple requests_get soup_select query limit = Return E →
  Forall (λ r, filled (r !! "title") ∧ filled (r !! "snippet")
               ∧ ∃ link, r !! "link" = Some (Some link) ∧ link ≠ ""
                         ∧ occurs "http" link) E.
Proof.
  rewrite search_google_simple_eq. intros [= <-].
  destruct (requests_get _ query) as [response|]; [|done].
  destruct (_ =? _)%Z; [|done].
  destruct (soup_select _ _) as [divs|]; [|done].
  apply Forall_take, Forall_forall. intros r Hr.
  apply list_elem_of_omap in Hr as (div & _ & Hdiv).
  by eapply google_record_filled.
Qed.

(** X5. Every record that [_search_duckduckgo] returns has a non-empty
    title, a non-empty link and a non-empty snippet. *)
Theorem search_duckduckgo_records (query : string) (limit : Z)
    (E : list evidence) :
  _search_duckduckgo requests_post soup_find_all_div query limit
    = Return E →
  Forall (λ r, filled (r !! "title") ∧ filled (r !! "link")
               ∧ filled (r !! "snippet")) E.
Proof.
  rewrite search_duckduckgo_eq. intros [= <-].
  destruct (requests_post _ query) as [response|]; [|done].
  destruct (_ =? _)%Z; [|done].
  destruct (soup_find_all_div _ _) as [divs|]; [|done].
  apply Forall_take, Forall_forall. intros r Hr.
  apply list_elem_of_omap in Hr as (div & _ & Hdiv).
  by eapply duckduckgo_record_filled.
Qed.

(** X6. With a limit of zero or less, both scraping sources return the
    empty list whatever the pages contain. *)
Theorem scraping_without_room (query : string) (limit : Z) :
  (limit ≤ 0)%Z →
  _search_google_simple requests_get soup_select query limit = Return []
  ∧ _search_duckduckgo requests_post soup_find_all_div query limit
    = Return [].
Proof.
  intros Hl. rewrite search_google_simple_eq, search_duckduckgo_eq.
  replace (Z.to_nat limit) with 0 by lia. split; f_equal.
  - destruct (requests_get _ query) as [response|]; [|done].
    destruct (_ =? _)%Z; [|done]. by destruct (soup_select _ _).
  - destruct (requests_post _ query) as [response|]; [|done].
    destruct (_ =? _)%Z; [|done]. by destruct (soup_find_all_div _ _).
Qed.

End Sources.

End SourceFacts.

(* ===================================================================== *)
(** * Context assembly and normalisation, further properties              *)
(* ===================================================================== *)

Module ContextFacts.

Import Spec Analyzer Coverage ValidateFacts.

Lemma has_fields_dec (r : evidence) : has_fields r ∨ ¬ has_fields r.
Proof.
  unfold has_fields.
  destruct (r !! "title"), (r !! "link"), (r !! "snippet");
    (left; by eauto) || (right; intros (? & ? & ?); by eapply is_Some_None).
Qed.

(** One turn of the loop on a record that has the three fields. *)
Lemma prepare_context_loop_step i r rest parts :
  has_fields r →
  _prepare_context_loop i (r :: rest) parts =
    _prepare_context_loop (S i) rest (parts ++ [context_block i r]).
Proof.
  intros ([t Ht] & [l Hl] & [s Hs]). cbn [_prepare_context_loop].
  unfold getitem, context_block. rewrite Ht, Hl, Hs.
  by rewrite !bind_return.
Qed.

Lemma prepare_context_loop_ok i rs parts :
  Forall has_fields rs →
  _prepare_context_loop i rs parts = Return (parts ++ context_blocks i rs).
Proof.
  intros H. revert i parts.
  induction H as [|r rest Hr _ IH]; intros i parts.
  - cbn. by rewrite app_nil_r.
  - rewrite prepare_context_loop_step, IH by done.
    cbn [context_blocks]. by rewrite <- app_assoc.
Qed.

(** The missing field that stops the loop: the first of title, link and
    snippet that the first incomplete record lacks. *)
Lemma prepare_context_loop_fail i rs parts :
  ¬ Forall has_fields rs →
  ∃ complete r rest k,
    rs = complete ++ r :: rest
    ∧ Forall has_fields complete
    ∧ first_missing r = Some k
    ∧ _prepare_context_loop i rs parts
      = Raise (mk_exn KeyError ("'" +:+ k +:+ "'")).
Proof.
  revert i parts. induction rs as [|r rest IH]; intros i parts Hn.
  - destruct Hn. constructor.
  - destruct (has_fields_dec r) as [Hr|Hr].
    + rewrite prepare_context_loop_step by done.
      destruct (IH (S i) (parts ++ [context_block i r]))
        as (complete & r' & rest' & k & -> & Hc & Hk & Hrun).
      { intros Hrest. apply Hn. by constructor. }
      exists (r :: complete), r', rest', k.
      split_and!; [done | by constructor | done | done].
    + cbn [_prepare_context_loop]. unfold getitem.
      destruct (r !! "title") as [t|] eqn:Ht.
      2:{ exists [], r, rest, "title". unfold first_missing. rewrite Ht.
          split_and!; done. }
      destruct (r !! "link") as [l|] eqn:Hl.
      2:{ exists [], r, rest, "link". unfold first_missing. rewrite Ht, Hl.
          split_and!; done. }
      destruct (r !! "snippet") as [s|] eqn:Hs.
      2:{ exists [], r, rest, "snippet". unfold first_missing.
          rewrite Ht, Hl, Hs. split_and!; done. }
      destruct Hr. unfold has_fields. rewrite Ht, Hl, Hs. eauto.
Qed.

(** X7. Context assembly succeeds exactly on evidence whose records all
    have the fields title, link and snippet: it then returns one block per
    record, numbered from 1 in the order of the evidence and joined by
    newlines (the empty text for no evidence).  Otherwise the evidence
    splits into complete records, a first incomplete record and the rest,
    and context assembly raises the [KeyError] of the first field, in the
    order title, link, snippet, that the first incomplete record lacks. *)
Theorem prepare_context_spec (search_results : list evidence) :
  (Forall has_fields search_results →
   _prepare_context search_results
     = Return (PyStr.join PyStr.nl (context_blocks 1 search_results)))
  ∧ (¬ Forall has_fields search_results →
     ∃ complete r rest k,
       search_results = complete ++ r :: rest
       ∧ Forall has_fields complete
       ∧ first_missing r = Some k
       ∧ _prepare_context search_results
         = Raise (mk_exn KeyError ("'" +:+ k +:+ "'"))).
Proof.
  unfold _prepare_context. split; intros H.
  - by rewrite prepare_context_loop_ok.
  - destruct (prepare_context_loop_fail 1 search_results [] H)
      as (complete & r & rest & k & Hsplit & Hc & Hk & ->).
    by exists complete, r, rest, k.
Qed.

(** X7 on one complete record, and on two records the second of which
    has neither link nor snippet: the error names the link. *)
Lemma prepare_context_spec_witness :
  _prepare_context
    [ Scraper.record (Some "T") (Some "https://t.example") None ]
  = Return (PyStr.join PyStr.nl
              (context_blocks 1
                 [ Scraper.record (Some "T") (Some "https://t.example")
                     None ]))
  ∧ (∃ complete r rest k,
       [ Scraper.record (Some "T") (Some "https://t.example") None;
         {[ "title" := Some "U" ]} ] = complete ++ r :: rest
       ∧ Forall has_fields complete
       ∧ first_missing r = Some k
       ∧ _prepare_context
           [ Scraper.record (Some "T") (Some "https://t.example") None;
             {[ "title" := Some "U" ]} ]
         = Raise (mk_exn KeyError ("'" +:+ k +:+ "'")))
  ∧ _prepare_context
      [ Scraper.record (Some "T") (Some "https://t.example") None;
        {[ "title" := Some "U" ]} ]
    = Raise (mk_exn KeyError "'link'").
Proof.
  split_and!.
  - apply (proj1 (prepare_context_spec _)).
    repeat constructor; by eexists.
  - apply (proj2 (prepare_context_spec _)).
    intros H. apply Forall_cons in H as [_ H].
    apply Forall_cons in H as [(_ & [? H] & _) _]. discriminate H.
  - vm_compute. reflexivity.
Defined.

End ContextFacts.

Module NormalFacts.

Import Spec Analyzer Coverage ValidateFacts.

Lemma fill_defaults_id items (d : gmap string value) :
  Forall (λ kv : string * value, is_Some (d !! kv.1)) items →
  fill_defaults items d = d.
Proof.
  induction 1 as [|[k v] items [w Hk] _ IH]; [done|].
  cbn [fill_defaults fold_left fst snd] in *. by rewrite Hk.
Qed.

(** A score in range is a fixed point of the clamp. *)
Lemma clamp_score_fixed c : score_in_range c → clamp_score c = Return c.
Proof.
  destruct c as [|b|z|f|s|l|d]; cbn [score_in_range]; try done.
  - by intros ->.
  - intros Hz. rewrite clamp_score_int. do 2 f_equal. lia.
  - intros [H0 H10]. by rewrite clamp_score_float, H10, H0.
Qed.

(** X8. Normalisation is idempotent: a record that [_validate_analysis]
    has returned is returned unchanged when it is validated again. *)
Theorem validate_analysis_idempotent (analysis r : value) :
  _validate_analysis analysis = Return r →
  _validate_analysis r = Return r.
Proof.
  intros H.
  destruct (validate_analysis_returns_dict _ _ H) as (d & d' & -> & ->).
  destruct (validated_score_in_range _ _ H) as (c & Hc & Hrange).
  assert (Hkeys : Forall (λ kv : string * value, is_Some (d' !! kv.1))
                    defaults).
  { rewrite validate_analysis_dict in H. cbn zeta in H.
    destruct (clamp_score _) as [c'|?]; [|done].
    rewrite bind_return in H.
    assert (d' = <["credibility_score" := c']> (fill_defaults defaults d))
      as -> by congruence.
    apply Forall_forall. intros [k v] Hin. cbn [fst].
    destruct (decide (k = "credibility_score")) as [->|Hne].
    - rewrite lookup_insert_eq. eauto.
    - rewrite lookup_insert_ne by done.
      destruct (d !! k) as [w|] eqn:Hd.
      + rewrite (fill_defaults_present _ _ _ _ Hd). eauto.
      + rewrite (fill_defaults_absent _ _ _ Hd).
        unfold defaults in Hin |- *.
        repeat (apply elem_of_cons in Hin as [[= -> ->]|Hin];
                [cbn; eauto|]).
        by apply elem_of_nil in Hin. }
  rewrite validate_analysis_dict. cbn zeta.
  rewrite (fill_defaults_id _ _ Hkeys), Hc. cbn [from_option id].
  rewrite (clamp_score_fixed _ Hrange), bind_return.
  by rewrite insert_id.
Qed.

(** X8 on a record with an out-of-range score and a model-made verdict. *)
Lemma validate_analysis_idempotent_witness :
  ∃ r, _validate_analysis
         (VDict {[ "credibility_score" := VStr "42";
                   "verdict" := VStr "Probably" ]}) = Return r
       ∧ _validate_analysis r = Return r.
Proof.
  eexists. split; [vm_compute; reflexivity|].
  apply (validate_analysis_idempotent
           (VDict {[ "credibility_score" := VStr "42";
                     "verdict" := VStr "Probably" ]})).
  vm_compute. reflexivity.
Defined.

(** X9. On a parsed dict, [_validate_analysis] returns a record exactly
    when the score is absent or is a number, a boolean or a string; a
    score that is null, a list or an object makes it raise a
    [TypeError]. *)
Theorem validate_analysis_returns_iff (d : gmap string value) :
  (clampable (d !! "credibility_score") →
   ∃ d', _validate_analysis (VDict d) = Return (VDict d'))
  ∧ (¬ clampable (d !! "credibility_score") →
     ∃ e, _validate_analysis (VDict d) = Raise e
          ∧ exn_cls e = TypeError).
Proof.
  split.
  - apply FrameFacts.validate_analysis_returns.
  - intros Hn. rewrite validate_analysis_dict. cbn zeta.
    rewrite FrameFacts.fill_defaults_score_default.
    destruct (d !! "credibility_score") as [[| | | | |l|m]|];
      try (destruct Hn; exact I); eexists; split; done.
Qed.

(** X9 on the answers [{"credibility_score": 3.5}] (taken as the float)
    and [{"credibility_score": null}]. *)
Lemma validate_analysis_returns_iff_witness :
  (∃ d', _validate_analysis
           (VDict {[ "credibility_score" := VFloat 3.5%float ]})
         = Return (VDict d'))
  ∧ (∃ e, _validate_analysis (VDict {[ "credibility_score" := VNone ]})
          = Raise e ∧ exn_cls e = TypeError).
Proof.
  split.
  - apply (proj1 (validate_analysis_returns_iff _)). exact I.
  - apply (proj2 (validate_analysis_returns_iff _)). intros H. exact H.
Defined.

(** X10. Scores that are not integers are not made integers: a float
    strictly between 0 and 10 is stored unchanged, a float that is not
    below 10 (NaN included) becomes the integer 10, a float below 10 that
    is not above 0 becomes the integer 0, [True] stays [True] and [False]
    becomes the integer 0. *)
Theorem non_integer_scores (d : gmap string value) (f : float) :
  normalized_score (VDict (<["credibility_score" := VFloat f]> d))
    = Some (if PrimFloat.ltb f 10%float
            then if PrimFloat.ltb 0%float f then VFloat f else VInt 0
            else VInt 10)
  ∧ normalized_score (VDict (<["credibility_score" := VBool true]> d))
    = Some (VBool true)
  ∧ normalized_score (VDict (<["credibility_score" := VBool false]> d))
    = Some (VInt 0).
Proof.
  by rewrite !normalized_score_insert, clamp_score_float, !clamp_score_bool.
Qed.

End NormalFacts.

Module AnswerFacts.

Import Spec Analyzer Coverage ValidateFacts AnalyzeFacts.

Section Answers.

Variable json_loads : string → outcome value.
Variable chat_completions_create :
  string → list (string * string) → Z → float
  → outcome (list (option string)).
Variable model : string.

(** X11. When the model answers with JSON that is not an object (a list,
    a string, a number, a boolean or null), [analyze_claim] returns the
    "Analysis Failed" record, built from a [TypeError] or an
    [AttributeError]. *)
Theorem analyze_claim_non_object (claim : string)
    (search_results : list evidence) (text : string) (analysis : value) :
  answered chat_completions_create model claim search_results text →
  json_loads (extract_json_str text) = Return analysis →
  is_dict analysis = false →
  ∃ e, analyze_claim json_loads chat_completions_create model
         claim search_results = Return (VDict (failure_record e))
       ∧ (exn_cls e = TypeError ∨ exn_cls e = AttributeError).
Proof.
  intros Ha Hl Hd.
  destruct (validate_analysis_other _ Hd) as (e & He & Hcls).
  exists e. split; [|done].
  apply analyze_claim_failure. by eapply fail_validate.
Qed.

(** X12. On every path, the record that [analyze_claim] returns stores a
    score of [[0, 10]]: 0 when the analysis failed, 5 for a non-JSON
    answer, and the clamped score otherwise. *)
Theorem analyze_claim_score_in_range (claim : string)
    (search_results : list evidence) :
  ∃ d c, analyze_claim json_loads chat_completions_create model
           claim search_results = Return (VDict d)
         ∧ d !! "credibility_score" = Some c
         ∧ score_in_range c.
Proof.
  destruct (analyze_claim_cases json_loads chat_completions_create model
              claim search_results)
    as [(e & _ & ->) | [(text & e & _ & _ & _ & ->)
                       | (text & m & d' & _ & _ & Hv & ->)]].
  - exists (failure_record e), (VInt 0). split_and!; [done..|]. cbn. lia.
  - exists (non_json_record text), (VInt 5). split_and!; [done..|]. cbn. lia.
  - destruct (validated_score_in_range _ _ Hv) as (c & Hc & Hr).
    by exists d', c.
Qed.

End Answers.

(** X11 on the answer [[1, 2]], a JSON list. *)
Lemma analyze_claim_non_object_witness :
  ∃ e, analyze_claim (loads_only "[1, 2]" (VList [VInt 1; VInt 2]))
         (client_says "[1, 2]") "gpt-5-nano" diamond_claim []
       = Return (VDict (failure_record e))
       ∧ (exn_cls e = TypeError ∨ exn_cls e = AttributeError).
Proof.
  apply (analyze_claim_non_object
           (loads_only "[1, 2]" (VList [VInt 1; VInt 2]))
           (client_says "[1, 2]") "gpt-5-nano" diamond_claim []
           "[1, 2]" (VList [VInt 1; VInt 2])).
  - exists "", []. split; reflexivity.
  - reflexivity.
  - reflexivity.
Defined.

End AnswerFacts.

(* ===================================================================== *)
(** * Extraction, further properties                                      *)
(* ===================================================================== *)

Module SubstringFacts.

Import PyStr Spec Analyzer FindFacts ExtractFacts.

Lemma occurs_intro sub s pre post : s = pre +:+ sub +:+ post → occurs sub s.
Proof. intros ->. exists (String.length pre), pre, post. done. Qed.

Lemma occurs_refl s : occurs s s.
Proof. apply (occurs_intro s s "" ""). by rewrite app_nil_l, app_nil_r. Qed.

Lemma occurs_trans a b c : occurs a b → occurs b c → occurs a c.
Proof.
  intros (_ & p1 & q1 & -> & _) (_ & p2 & q2 & -> & _).
  apply (occurs_intro _ _ (p2 +:+ p1) (q1 +:+ q2)).
  by rewrite !app_assoc.
Qed.

Lemma take_drop n s : take n s +:+ drop n s = s.
Proof.
  revert s. induction n as [|n IH]; intros [|c s]; try done.
  cbn [take drop]. by rewrite app_cons, IH.
Qed.

Lemma occurs_take_drop n m s : occurs (take n (drop m s)) s.
Proof.
  apply (occurs_intro _ _ (take m s) (drop n (drop m s))).
  by rewrite take_drop, take_drop.
Qed.

Lemma occurs_slice s a b : occurs (slice s a b) s.
Proof. apply occurs_take_drop. Qed.

Lemma lstrip_suffix s : ∃ pre, s = pre +:+ lstrip s.
Proof.
  induction s as [|c s [pre IH]]; [by exists ""|]. cbn [lstrip].
  destruct (isspace c); [|by exists ""].
  exists (String c pre). by rewrite app_cons, <- IH.
Qed.

Lemma rstrip_prefix s : ∃ post, s = rstrip s +:+ post.
Proof.
  induction s as [|c s [post IH]]; [by exists ""|]. cbn [rstrip].
  destruct (rstrip s) as [|a r] eqn:Hr.
  - rewrite app_nil_l in IH. subst post.
    destruct (isspace c); [by exists (String c s) | by exists s].
  - exists post. by rewrite app_cons, <- IH.
Qed.

Lemma occurs_strip s : occurs (strip s) s.
Proof.
  unfold strip. destruct (lstrip_suffix s) as [pre Hpre].
  destruct (rstrip_prefix (lstrip s)) as [post Hpost].
  apply (occurs_intro _ _ pre post). by rewrite <- Hpost.
Qed.

(** X13. The text handed to [json.loads] is always a contiguous part of
    the response: extraction only cuts, it never adds or reorders
    characters. *)
Theorem extract_json_str_substring (analysis_text : string) :
  occurs (extract_json_str analysis_text) analysis_text.
Proof.
  unfold extract_json_str.
  destruct (contains "```json" analysis_text).
  - eapply occurs_trans; [apply occurs_strip | apply occurs_slice].
  - destruct (contains "{" analysis_text && contains "}" analysis_text).
    + apply occurs_slice.
    + apply occurs_refl.
Qed.

Lemma find_first_absent sub s : ¬ occurs sub s → find_first sub s = None.
Proof.
  intros Hn. destruct (find_first sub s) as [i|] eqn:Hf; [|done].
  destruct Hn. exists i. by apply find_first_first_at.
Qed.

Lemma find_from_absent s sub st :
  st ≤ String.length s → ¬ occurs sub (drop st s) →
  find s sub (Z.of_nat st) = (-1)%Z.
Proof.
  intros Hst Hn. unfold find, norm_index.
  destruct (Z.ltb_spec (Z.of_nat (String.length s)) (Z.of_nat st)); [lia|].
  destruct (Z.ltb_spec (Z.of_nat st) 0); [lia|].
  replace (Z.to_nat (Z.min (Z.of_nat st) (Z.of_nat (String.length s))))
    with st by lia.
  by rewrite find_first_absent.
Qed.

(** X14. When the first [```json] marker is not followed by any fence,
    the text handed to [json.loads] is what follows the marker without its
    last character, stripped of surrounding whitespace. *)
Theorem extract_unclosed_fence (analysis_text pre rest : string) :
  analysis_text = pre +:+ json_marker +:+ rest →
  first_at json_marker analysis_text (String.length pre) →
  ¬ occurs fence rest →
  extract_json_str analysis_text
    = strip (take (String.length rest - 1) rest).
Proof.
  intros Htext Hmarker Hfence. unfold extract_json_str.
  unfold json_marker, fence in *.
  assert (Hc : contains "```json" analysis_text = true).
  { apply contains_spec. exists (String.length pre). apply Hmarker. }
  rewrite Hc, (find_zero _ _ _ Hmarker).
  assert (Hlen : String.length analysis_text
                 = String.length pre + 7 + String.length rest).
  { rewrite Htext, !length_app. cbn. lia. }
  assert (Hdrop : drop (String.length pre + 7) analysis_text = rest).
  { rewrite Htext, <- (app_assoc pre).
    replace (String.length pre + 7)
      with (String.length (pre +:+ "```json"))
      by (rewrite length_app; done).
    apply drop_app. }
  replace (Z.of_nat (String.length pre) + 7)%Z
    with (Z.of_nat (String.length pre + 7)) by lia.
  rewrite find_from_absent; [|lia|by rewrite Hdrop].
  unfold slice, norm_index.
  destruct (Z.ltb_spec (Z.of_nat (String.length pre + 7)) 0); [lia|].
  destruct (Z.ltb_spec (-1) 0); [|lia].
  replace (Z.to_nat (Z.min (Z.of_nat (String.length pre + 7))
                       (Z.of_nat (String.length analysis_text))))
    with (String.length pre + 7) by lia.
  rewrite Hdrop. do 2 f_equal. lia.
Qed.

(** X14 on the object of the specification inside a fence that is never
    closed: the closing brace is lost. *)
Lemma extract_unclosed_fence_witness :
  extract_json_str unclosed_example
    = strip (take (String.length (nl +:+ inner_object) - 1)
               (nl +:+ inner_object))
  ∧ extract_json_str unclosed_example +:+ "}" = inner_object.
Proof.
  split; [|reflexivity].
  apply (extract_unclosed_fence unclosed_example "" (nl +:+ inner_object)).
  - reflexivity.
  - apply find_first_spec. vm_compute. reflexivity.
  - apply contains_false. vm_compute. reflexivity.
Defined.

End SubstringFacts.

(* ===================================================================== *)
(** * Prompt construction and input validation, further properties        *)
(* ===================================================================== *)

Module PromptFacts.

Import PyStr Spec Analyzer FindFacts SubstringFacts.

Lemma join_head sep x l : ∃ post, join sep (x :: l) = x +:+ post.
Proof.
  destruct l as [|y l]; [exists ""; by rewrite app_nil_r | by eexists].
Qed.

Lemma join_cons sep a l :
  l ≠ [] → join sep (a :: l) = a +:+ sep +:+ join sep l.
Proof. by destruct l. Qed.

Lemma join_split sep l1 x l2 :
  ∃ pre post, join sep (l1 ++ x :: l2) = pre +:+ x +:+ post.
Proof.
  induction l1 as [|a l1 (pre & post & IH)].
  - destruct (join_head sep x l2) as [post Hp]. by exists "", post.
  - exists (a +:+ sep +:+ pre), post.
    change ((a :: l1) ++ x :: l2) with (a :: (l1 ++ x :: l2)).
    rewrite join_cons by (by destruct l1). by rewrite IH, !app_assoc.
Qed.

Lemma join_split2 sep l1 x l2 y l3 :
  ∃ pre mid post,
    join sep (l1 ++ x :: l2 ++ y :: l3) = pre +:+ x +:+ mid +:+ y +:+ post.
Proof.
  induction l1 as [|a l1 (pre & mid & post & IH)].
  - destruct (join_split sep l2 y l3) as (mid & post & Hm).
    exists "", (sep +:+ mid), post.
    change ([] ++ x :: l2 ++ y :: l3) with (x :: (l2 ++ y :: l3)).
    rewrite join_cons by (by destruct l2). by rewrite Hm, !app_assoc.
  - exists (a +:+ sep +:+ pre), mid, post.
    change ((a :: l1) ++ x :: l2 ++ y :: l3)
      with (a :: (l1 ++ x :: l2 ++ y :: l3)).
    rewrite join_cons by (by destruct l1). by rewrite IH, !app_assoc.
Qed.

(** X15. The prompt embeds the claim and the context verbatim, the claim
    first: neither is escaped, truncated or altered. *)
Theorem prompt_embeds_claim_and_context (claim context : string) :
  ∃ pre mid post,
    _create_analysis_prompt claim context
      = pre +:+ claim +:+ mid +:+ context +:+ post.
Proof.
  unfold _create_analysis_prompt.
  match goal with
  | |- ∃ _ _ _, join nl (?a :: ?b :: ?x :: ?c :: ?d :: ?y :: ?l) = _ =>
      destruct (join_split2 nl [a; b] x [c; d] y l)
        as (pre & mid & post & H);
      change ([a; b] ++ x :: [c; d] ++ y :: l)
        with (a :: b :: x :: c :: d :: y :: l) in H
  end.
  exists (pre +:+ "CLAIM: "), mid, post. by rewrite H, !app_assoc.
Qed.

End PromptFacts.

Module TrimFacts.

Import PyStr Spec Utils PyStrFacts.

Lemma alnum_not_space c : is_alnum c = true → isspace c = false.
Proof. by destruct c as [[] [] [] [] [] [] [] []]. Qed.

Lemma rstrip_cons c s :
  isspace c = false → rstrip (String c s) = String c (rstrip s).
Proof. intros Hc. cbn [rstrip]. rewrite Hc. by destruct (rstrip s). Qed.

Lemma rstrip_idempotent s : rstrip (rstrip s) = rstrip s.
Proof.
  induction s as [|c s IH]; [done|]. cbn [rstrip].
  destruct (rstrip s) as [|a r] eqn:Hr.
  - destruct (isspace c) eqn:Hc; [done|]. cbn [rstrip]. by rewrite Hc.
  - cbn [rstrip] in IH |- *. by rewrite IH.
Qed.

Lemma lstrip_head s :
  lstrip s = "" ∨ ∃ c r, lstrip s = String c r ∧ isspace c = false.
Proof.
  induction s as [|c s IH]; [by left|]. cbn [lstrip].
  destruct (isspace c) eqn:Hc; [done|]. right. eauto.
Qed.

(** Trimming twice is trimming once. *)
Lemma strip_idempotent s : strip (strip s) = strip s.
Proof.
  unfold strip. destruct (lstrip_head s) as [->|(c & r & -> & Hc)]; [done|].
  rewrite (rstrip_cons _ _ Hc). cbn [lstrip]. rewrite Hc.
  by rewrite (rstrip_cons _ _ Hc), rstrip_idempotent.
Qed.

Lemma existsb_lstrip s : existsb is_alnum (lstrip s) = existsb is_alnum s.
Proof.
  induction s as [|c s IH]; [done|]. cbn [lstrip].
  destruct (isspace c) eqn:Hc; [|done]. cbn [existsb].
  destruct (is_alnum c) eqn:Ha; [|done].
  apply alnum_not_space in Ha. congruence.
Qed.

Lemma existsb_rstrip s : existsb is_alnum (rstrip s) = existsb is_alnum s.
Proof.
  induction s as [|c s IH]; [done|]. cbn [rstrip existsb].
  destruct (rstrip s) as [|a r] eqn:Hr.
  - rewrite <- IH. cbn [existsb]. rewrite orb_false_r.
    destruct (isspace c) eqn:Hc; cbn [existsb]; [|by rewrite orb_false_r].
    destruct (is_alnum c) eqn:Ha; [|done].
    apply alnum_not_space in Ha. congruence.
  - cbn [existsb] in IH |- *. by rewrite IH.
Qed.

Lemma existsb_strip s : existsb is_alnum (strip s) = existsb is_alnum s.
Proof. unfold strip. by rewrite existsb_rstrip, existsb_lstrip. Qed.

(** X16. Validation does not depend on surrounding whitespace: a claim is
    accepted exactly when its trimmed form is. *)
Theorem validate_input_strip (claim : string) :
  validate_input (strip claim) = validate_input claim.
Proof.
  unfold validate_input, re_search_alnum.
  rewrite strip_idempotent, existsb_strip.
  destruct (Z.ltb_spec (Z.of_nat (String.length (strip claim))) 10)
    as [Hlt|Hge]; [by rewrite !orb_true_r|].
  rewrite !orb_false_r.
  assert (strip claim ≠ "") by (intros Heq; rewrite Heq in Hge; cbn in Hge; lia).
  assert (claim ≠ "") by (intros ->; done).
  by rewrite !bool_decide_eq_false_2.
Qed.

End TrimFacts.

(* ===================================================================== *)
(** * The cascade of sources and the configuration                        *)
(* ===================================================================== *)

Module CascadeFacts.

Import Spec Scraper Coverage ValidateFacts ScraperFacts SourceFacts.

Lemma record_has_fields title link snippet :
  has_fields (record title link snippet).
Proof. unfold has_fields, record. split_and!; by eexists. Qed.

Lemma filled_is_Some v : filled v → is_Some v.
Proof. intros (s & -> & _). eauto. Qed.

Lemma fallback_has_fields query :
  Forall has_fields (_get_fallback_results query).
Proof. repeat constructor; apply record_has_fields. Qed.

Section Cascade.

Variables api_key search_id : option string.
Variable customsearch_execute :
  option string → string → option string → Z
  → outcome (option (list (gmap string string))).
Variable requests_get : string → string → outcome http_response.
Variable requests_post : string → string → outcome http_response.
Variable soup_select : string → string → outcome (list node).
Variable soup_find_all_div : string → string → outcome (list node).

Lemma search_google_simple_fields query limit E :
  _search_google_simple requests_get soup_select query limit = Return E →
  Forall has_fields E.
Proof.
  rewrite search_google_simple_eq. intros H.
  assert (E = match requests_get "https://www.google.com/search" query with
              | Return response =>
                  if (status_code response =? 200)%Z then
                    match soup_select (text response)
                            "div.g, div.tF2Cxc, div.kvH3mc" with
                    | Return divs =>
                        take (Z.to_nat limit) (omap (google_record query) divs)
                    | Raise _ => []
                    end
                  else []
              | Raise _ => []
              end) as -> by congruence.
  destruct (requests_get _ query) as [response|]; [|done].
  destruct (_ =? _)%Z; [|done].
  destruct (soup_select _ _) as [divs|]; [|done].
  apply Forall_take, Forall_forall. intros r Hr.
  apply list_elem_of_omap in Hr as (div & _ & Hdiv).
  destruct (google_record_filled _ _ _ Hdiv) as (Ht & Hs & l & Hl & _).
  split_and!; [by apply filled_is_Some | rewrite Hl; eauto
              | by apply filled_is_Some].
Qed.

Lemma search_duckduckgo_fields query limit E :
  _search_duckduckgo requests_post soup_find_all_div query limit
    = Return E →
  Forall has_fields E.
Proof.
  rewrite search_duckduckgo_eq. intros H.
  assert (E = match requests_post "https://html.duckduckgo.com/html/" query
              with
              | Return response =>
                  if (status_code response =? 200)%Z then
                    match soup_find_all_div (text response) "result" with
                    | Return divs =>
                        take (Z.to_nat limit)
                          (omap (duckduckgo_record query) divs)
                    | Raise _ => []
                    end
                  else []
              | Raise _ => []
              end) as -> by congruence.
  destruct (requests_post _ query) as [response|]; [|done].
  destruct (_ =? _)%Z; [|done].
  destruct (soup_find_all_div _ _) as [divs|]; [|done].
  apply Forall_take, Forall_forall. intros r Hr.
  apply list_elem_of_omap in Hr as (div & _ & Hdiv).
  destruct (duckduckgo_record_filled _ _ _ Hdiv) as (Ht & Hl & Hs).
  split_and!; by apply filled_is_Some.
Qed.

Lemma use_google_custom_search_fields query limit R :
  _use_google_custom_search api_key search_id customsearch_execute
    query limit = Return R →
  Forall has_fields R.
Proof.
  unfold _use_google_custom_search.
  destruct (customsearch_execute _ _ _ _) as [response|];
    rewrite ?bind_return, ?bind_raise; [|done].
  intros H.
  assert (R = (λ item : gmap string string,
                 record (item !! "title") (item !! "link")
                   (item !! "snippet")) <$> default [] response)
    as -> by congruence.
  apply Forall_fmap, Forall_forall. intros item _.
  apply record_has_fields.
Qed.

(** The cascade, given what the two scraping sources return. *)
Lemma cascade_eq query limit R G D :
  _search_google_simple requests_get soup_select query limit = Return G →
  _search_duckduckgo requests_post soup_find_all_div query limit
    = Return D →
  fallback_cascade requests_get requests_post soup_select soup_find_all_div
    query limit R =
  Return (if nonempty R then R
          else if nonempty G then G
          else if nonempty D then D
          else _get_fallback_results query).
Proof.
  intros HG HD. unfold fallback_cascade.
  destruct (nonempty R) eqn:HR; cbn [negb]; rewrite ?bind_return.
  { rewrite HR. cbn [negb]. rewrite bind_return, HR. cbn [negb].
    by rewrite !bind_return. }
  rewrite HG, bind_return.
  destruct (nonempty G) eqn:HnG; cbn [negb]; rewrite ?bind_return.
  { rewrite HnG. cbn [negb]. by rewrite !bind_return. }
  rewrite HD, bind_return.
  destruct (nonempty D) eqn:HnD; cbn [negb]; by rewrite !bind_return.
Qed.

(** What the cascade returns is non-empty and has the three fields. *)
Lemma cascade_nonempty_fields query limit R E :
  Forall has_fields R →
  fallback_cascade requests_get requests_post soup_select soup_find_all_div
    query limit R = Return E →
  E ≠ [] ∧ Forall has_fields E.
Proof.
  intros HR.
  destruct (search_google_simple_returns requests_get soup_select
              query limit) as (G & HG & _).
  destruct (search_duckduckgo_returns requests_post soup_find_all_div
              query limit) as (D & HD & _).
  rewrite (cascade_eq _ _ _ _ _ HG HD). intros H.
  assert (E = if nonempty R then R
              else if nonempty G then G
              else if nonempty D then D
              else _get_fallback_results query) as -> by congruence.
  destruct R as [|r R]; cbn [nonempty]; [|done].
  destruct G as [|g G]; cbn [nonempty];
    [|split; [done | by eapply search_google_simple_fields]].
  destruct D as [|d D]; cbn [nonempty];
    [|split; [done | by eapply search_duckduckgo_fields]].
  split; [done | apply fallback_has_fields].
Qed.

(** X17. With both credentials set and a custom-search call that
    returns, [search] returns the result of the first source that is not
    empty, unmodified and without merging: the custom search, then the
    Google scrape, then the DuckDuckGo scrape, and the three placeholder
    records only when all three are empty. *)
Theorem search_first_nonempty_source (query : string) (limit : Z)
    (R G D : list evidence) :
  truthy api_key && truthy search_id = true →
  _use_google_custom_search api_key search_id customsearch_execute
    query limit = Return R →
  _search_google_simple requests_get soup_select query limit = Return G →
  _search_duckduckgo requests_post soup_find_all_div query limit
    = Return D →
  search api_key search_id customsearch_execute requests_get requests_post
    soup_select soup_find_all_div query limit =
  Return (if nonempty R then R
          else if nonempty G then G
          else if nonempty D then D
          else _get_fallback_results query).
Proof.
  intros Hkeys HR HG HD. rewrite search_eq, Hkeys, HR.
  by apply cascade_eq.
Qed.

(** X18. [search] never returns an empty list: whenever it returns, there
    is at least one record. *)
Theorem search_never_empty (query : string) (limit : Z)
    (E : list evidence) :
  search api_key search_id customsearch_execute requests_get requests_post
    soup_select soup_find_all_div query limit = Return E →
  E ≠ [].
Proof.
  rewrite search_eq.
  destruct (truthy api_key && truthy search_id); [|done].
  destruct (_use_google_custom_search _ _ _ query limit)
    as [R|] eqn:HR; [|done].
  intros H. eapply cascade_nonempty_fields; [|done].
  by eapply use_google_custom_search_fields.
Qed.

(** X19. Every record that [search] returns has the fields title, link
    and snippet, so that the context assembly of the analyzer succeeds on
    whatever [search] returns. *)
Theorem search_feeds_prepare_context (query : string) (limit : Z)
    (E : list evidence) :
  search api_key search_id customsearch_execute requests_get requests_post
    soup_select soup_find_all_div query limit = Return E →
  Forall has_fields E
  ∧ ∃ context, Analyzer._prepare_context E = Return context.
Proof.
  rewrite search_eq.
  destruct (truthy api_key && truthy search_id); [|done].
  destruct (_use_google_custom_search _ _ _ query limit)
    as [R|] eqn:HR; [|done].
  intros H.
  assert (HE : Forall has_fields E).
  { eapply cascade_nonempty_fields; [|done].
    by eapply use_google_custom_search_fields. }
  split; [done|]. unfold Analyzer._prepare_context.
  rewrite (ContextFacts.prepare_context_loop_ok _ _ _ HE), bind_return.
  eauto.
Qed.

End Cascade.

(** X17, X18 and X19 on one run: both credentials set, a custom search
    without items, a Google page with three blocks of which two qualify,
    and no network for DuckDuckGo. *)
Lemma search_first_nonempty_source_witness :
  search (Some "key") (Some "cx") no_items (http_status 200) no_network
    (parser_finds three_blocks) no_network diamond_claim 5
  = Return (take 5 (omap (google_record diamond_claim) three_blocks))
  ∧ length (take 5 (omap (google_record diamond_claim) three_blocks)) = 2.
Proof.
  split; [|reflexivity].
  etrans;
    [apply (search_first_nonempty_source (Some "key") (Some "cx") no_items
              (http_status 200) no_network (parser_finds three_blocks)
              no_network diamond_claim 5 []
              (take 5 (omap (google_record diamond_claim) three_blocks)) []);
     reflexivity
    |reflexivity].
Defined.

Lemma search_never_empty_witness :
  take 5 (omap (google_record diamond_claim) three_blocks) ≠ [].
Proof.
  apply (search_never_empty (Some "key") (Some "cx") no_items
           (http_status 200) no_network (parser_finds three_blocks)
           no_network diamond_claim 5).
  reflexivity.
Defined.

Lemma search_feeds_prepare_context_witness :
  Forall has_fields
    (take 5 (omap (google_record diamond_claim) three_blocks))
  ∧ ∃ context,
      Analyzer._prepare_context
        (take 5 (omap (google_record diamond_claim) three_blocks))
      = Return context.
Proof.
  apply (search_feeds_prepare_context (Some "key") (Some "cx") no_items
           (http_status 200) no_network (parser_finds three_blocks)
           no_network diamond_claim 5).
  reflexivity.
Defined.

End CascadeFacts.

Module SourceWitnesses.

Import Spec Scraper Coverage SourceFacts.

(** X1 on a page with three blocks and a limit of one. *)
Lemma search_google_simple_blocks_witness :
  _search_google_simple (http_status 200) (parser_finds three_blocks)
    diamond_claim 1
  = Return (take 1 (omap (google_record diamond_claim) three_blocks))
  ∧ take 1 (omap (google_record diamond_claim) three_blocks)
    = [ record (Some "First") (Some "https://one.example")
          (Some "about one") ].
Proof.
  split; [|reflexivity].
  apply (search_google_simple_blocks (http_status 200)
           (parser_finds three_blocks) diamond_claim 1
           (mk_response 200 "<html></html>") three_blocks); reflexivity.
Defined.

(** X2 on a page with one result that has no snippet and one result
    without title text. *)
Lemma search_duckduckgo_blocks_witness :
  _search_duckduckgo (http_status 200)
    (parser_finds [ duckduckgo_block "Only" "https://only.example";
                    duckduckgo_block "" "https://untitled.example" ])
    "q" 5
  = Return (take 5 (omap (duckduckgo_record "q")
                      [ duckduckgo_block "Only" "https://only.example";
                        duckduckgo_block "" "https://untitled.example" ]))
  ∧ take 5 (omap (duckduckgo_record "q")
              [ duckduckgo_block "Only" "https://only.example";
                duckduckgo_block "" "https://untitled.example" ])
    = [ record (Some "Only") (Some "https://only.example")
          (Some "Information about q") ].
Proof.
  split; [|reflexivity].
  apply (search_duckduckgo_blocks (http_status 200) (parser_finds _)
           "q" 5 (mk_response 200 "<html></html>")); reflexivity.
Defined.

(** X3 without network, and on a page answered with status 503. *)
Lemma scraping_failure_is_empty_witness :
  _search_google_simple no_network (parser_finds three_blocks)
    diamond_claim 5 = Return []
  ∧ _search_duckduckgo (http_status 503) (parser_finds three_blocks)
      diamond_claim 5 = Return [].
Proof.
  split.
  - destruct (scraping_failure_is_empty no_network (http_status 503)
                (parser_finds three_blocks) (parser_finds three_blocks)
                diamond_claim 5) as [[Hraise _] _].
    eapply Hraise. reflexivity.
  - destruct (scraping_failure_is_empty no_network (http_status 503)
                (parser_finds three_blocks) (parser_finds three_blocks)
                diamond_claim 5) as [_ [_ Hstatus]].
    eapply Hstatus; [reflexivity | left; done].
Defined.

(** X4 and X5 on the pages above. *)
Lemma search_google_simple_records_witness :
  Forall (λ r, filled (r !! "title") ∧ filled (r !! "snippet")
               ∧ ∃ link, r !! "link" = Some (Some link) ∧ link ≠ ""
                         ∧ occurs "http" link)
    (take 5 (omap (google_record diamond_claim) three_blocks)).
Proof.
  apply (search_google_simple_records (http_status 200)
           (parser_finds three_blocks) diamond_claim 5).
  reflexivity.
Defined.

Lemma search_duckduckgo_records_witness :
  Forall (λ r, filled (r !! "title") ∧ filled (r !! "link")
               ∧ filled (r !! "snippet"))
    [ record (Some "Only") (Some "https://only.example")
        (Some "Information about q") ].
Proof.
  apply (search_duckduckgo_records (http_status 200)
           (parser_finds [ duckduckgo_block "Only" "https://only.example" ])
           "q" 5).
  reflexivity.
Defined.

(** X6 on the page with three blocks and a limit of zero. *)
Lemma scraping_without_room_witness :
  _search_google_simple (http_status 200) (parser_finds three_blocks)
    diamond_claim 0 = Return []
  ∧ _search_duckduckgo (http_status 200) (parser_finds three_blocks)
      diamond_claim 0 = Return [].
Proof.
  apply (scraping_without_room (http_status 200) (http_status 200)
           (parser_finds three_blocks) (parser_finds three_blocks)
           diamond_claim 0).
  lia.
Defined.

End SourceWitnesses.


(* ===================================================================== *)
(** * The configuration                                                   *)
(* ===================================================================== *)

Module ConfigFacts.

Import Spec Scraper Coverage ValidateFacts ScraperFacts.

Lemma int_of_Some s z : PyStr.int s = Some z → Config.int_of s = Return z.
Proof.
  unfold Config.int_of, PyStr.int.
  destruct (PyStr.parse_int s); [by intros [= ->] | done].
Qed.

Lemma int_of_None s :
  PyStr.int s = None →
  ∃ e, Config.int_of s = Raise e ∧ exn_cls e = ValueError.
Proof.
  unfold Config.int_of, PyStr.int.
  destruct (PyStr.parse_int s) as [z|[|digits]]; [done|..];
    intros _; by eexists.
Qed.

Section Init.

Variable py_float : string → option float.

(** The attributes that a constructed configuration takes straight from
    the environment. *)
Lemma config_init_fields environ cfg :
  Config.__init__ py_float environ = Return cfg →
  Config.openai_api_key cfg = environ !! "OPENAI_API_KEY"
  ∧ Config.google_api_key cfg = environ !! "GOOGLE_API_KEY"
  ∧ Config.google_cse_id cfg = environ !! "GOOGLE_CSE_ID"
  ∧ Config.model_name cfg = default "gpt-5-nano" (environ !! "MODEL_NAME").
Proof.
  unfold Config.__init__. cbn zeta.
  destruct (Config.int_of (default "1000" _)) as [mt|];
    rewrite ?bind_return, ?bind_raise; [|done].
  destruct (Config.float_of _ _) as [tp|];
    rewrite ?bind_return, ?bind_raise; [|done].
  destruct (Config.int_of (default "5" _)) as [ms|];
    rewrite ?bind_return, ?bind_raise; [|done].
  destruct (Config.int_of (default "10" _)) as [st|];
    rewrite ?bind_return, ?bind_raise; [|done].
  intros H.
  assert (cfg = Config.mk (environ !! "OPENAI_API_KEY")
                  (default "gpt-5-nano" (environ !! "MODEL_NAME")) mt tp
                  (environ !! "GOOGLE_API_KEY") (environ !! "GOOGLE_CSE_ID")
                  ms st) as -> by congruence.
  done.
Qed.

(** X20. [Config()] returns exactly when the four numeric settings parse
    (unset ones take their defaults; a variable set to the empty text is
    not replaced by its default); it then carries the two API keys, the
    search-engine id and the model name of the environment.  Otherwise it
    raises a [ValueError]. *)
Theorem config_init_spec (environ : gmap string string) :
  (numeric_settings_parse py_float environ →
   ∃ cfg, Config.__init__ py_float environ = Return cfg
     ∧ Config.openai_api_key cfg = environ !! "OPENAI_API_KEY"
     ∧ Config.google_api_key cfg = environ !! "GOOGLE_API_KEY"
     ∧ Config.google_cse_id cfg = environ !! "GOOGLE_CSE_ID"
     ∧ Config.model_name cfg
       = default "gpt-5-nano" (environ !! "MODEL_NAME"))
  ∧ (¬ numeric_settings_parse py_float environ →
     ∃ e, Config.__init__ py_float environ = Raise e
          ∧ exn_cls e = ValueError).
Proof.
  unfold numeric_settings_parse. split.
  - intros ([mt Hmt] & [tp Htp] & [ms Hms] & [st Hst]).
    assert (Hrun : ∃ cfg, Config.__init__ py_float environ = Return cfg).
    { unfold Config.__init__, Config.float_of. cbn zeta.
      rewrite (int_of_Some _ _ Hmt), bind_return, Htp, bind_return.
      rewrite (int_of_Some _ _ Hms), bind_return.
      rewrite (int_of_Some _ _ Hst), bind_return. eauto. }
    destruct Hrun as [cfg Hcfg]. exists cfg. split; [done|].
    by apply config_init_fields.
  - intros Hn. unfold Config.__init__, Config.float_of. cbn zeta.
    destruct (PyStr.int (default "1000" _)) as [mt|] eqn:Hmt;
      [rewrite (int_of_Some _ _ Hmt), bind_return
      |destruct (int_of_None _ Hmt) as (e & -> & He); by exists e].
    destruct (py_float _) as [tp|] eqn:Htp;
      [rewrite bind_return | by eexists].
    destruct (PyStr.int (default "5" _)) as [ms|] eqn:Hms;
      [rewrite (int_of_Some _ _ Hms), bind_return
      |destruct (int_of_None _ Hms) as (e & -> & He); by exists e].
    destruct (PyStr.int (default "10" _)) as [st|] eqn:Hst;
      [|destruct (int_of_None _ Hst) as (e & -> & He); by exists e].
    destruct Hn. eauto.
Qed.

(** A MAX_TOKENS that starts with a separator is no integer literal, although
    [strip] would remove the separator: [Config()] raises, and the message
    shows the [repr] of the text. *)
Lemma config_rejects_separator (environ : gmap string string) :
  environ !! "MAX_TOKENS" = Some separator_twelve →
  Config.__init__ py_float environ
  = Raise (mk_exn ValueError
             "invalid literal for int() with base 10: '\x1f12'").
Proof.
  intros H. unfold Config.__init__. cbn zeta. rewrite H.
  cbn [default from_option id].
  replace (Config.int_of separator_twelve)
    with (@Raise Z (mk_exn ValueError
             "invalid literal for int() with base 10: '\x1f12'"))
    by (vm_compute; reflexivity).
  by rewrite bind_raise.
Qed.

(** X21. [validate] looks at the OpenAI key only.  A configuration built
    from an environment that lacks a non-empty Google API key or
    search-engine id is accepted when the OpenAI key is set, and the
    scraper built from its two Google attributes raises
    [UnboundLocalError] on every search. *)
Theorem config_accepts_what_search_rejects (environ : gmap string string)
    (cfg : Config.t) :
  Config.__init__ py_float environ = Return cfg →
  truthy (environ !! "GOOGLE_API_KEY") && truthy (environ !! "GOOGLE_CSE_ID")
    = false →
  Config.validate cfg = truthy (environ !! "OPENAI_API_KEY")
  ∧ ∀ customsearch_execute requests_get requests_post soup_select
      soup_find_all_div query limit,
      ∃ e, search (Config.google_api_key cfg) (Config.google_cse_id cfg)
             customsearch_execute requests_get requests_post soup_select
             soup_find_all_div query limit = Raise e
           ∧ exn_cls e = UnboundLocalError.
Proof.
  intros Hcfg Hkeys.
  destruct (config_init_fields _ _ Hcfg) as (Ho & Hg & Hc & _). split.
  - unfold Config.validate. rewrite Ho.
    by destruct (truthy (environ !! "OPENAI_API_KEY")).
  - intros. apply search_without_credentials. by rewrite Hg, Hc.
Qed.

End Init.

(** X20 on an environment that sets only the OpenAI key, and on one that
    sets [MAX_TOKENS] to the empty text. *)
Lemma config_init_spec_witness :
  (∃ cfg, Config.__init__ float_default {[ "OPENAI_API_KEY" := "sk-test" ]}
          = Return cfg
     ∧ Config.openai_api_key cfg = Some "sk-test"
     ∧ Config.google_api_key cfg = None
     ∧ Config.google_cse_id cfg = None
     ∧ Config.model_name cfg = "gpt-5-nano")
  ∧ (∃ e, Config.__init__ float_default {[ "MAX_TOKENS" := "" ]} = Raise e
          ∧ exn_cls e = ValueError).
Proof.
  split.
  - assert (Hp : numeric_settings_parse float_default
                   {[ "OPENAI_API_KEY" := "sk-test" ]}).
    { unfold numeric_settings_parse. split_and!; by eexists. }
    exact (proj1 (config_init_spec float_default
                    {[ "OPENAI_API_KEY" := "sk-test" ]}) Hp).
  - apply (proj2 (config_init_spec float_default {[ "MAX_TOKENS" := "" ]})).
    unfold numeric_settings_parse. intros ([z Hz] & _). discriminate Hz.
Defined.

(** X21 on the environment that sets only the OpenAI key. *)
Lemma config_accepts_what_search_rejects_witness :
  ∃ cfg, Config.__init__ float_default {[ "OPENAI_API_KEY" := "sk-test" ]}
         = Return cfg
    ∧ Config.validate cfg = true
    ∧ ∃ e, search (Config.google_api_key cfg) (Config.google_cse_id cfg)
             no_items no_network no_network no_network no_network
             diamond_claim 5 = Raise e
           ∧ exn_cls e = UnboundLocalError.
Proof.
  exists (Config.mk (Some "sk-test") "gpt-5-nano" 1000 0.3%float None None
            5 10).
  assert (Hrun : Config.__init__ float_default
                   {[ "OPENAI_API_KEY" := "sk-test" ]}
                 = Return (Config.mk (Some "sk-test") "gpt-5-nano" 1000
                             0.3%float None None 5 10)) by reflexivity.
  destruct (config_accepts_what_search_rejects float_default
              {[ "OPENAI_API_KEY" := "sk-test" ]} _ Hrun eq_refl)
    as [Hv Hs].
  split; [exact Hrun|]. split; [exact Hv | apply Hs].
Defined.

End ConfigFacts.

(* ===================================================================== *)
(** * The custom-search source in the cascade                             *)
(* ===================================================================== *)

Module CustomSearchFacts.

Import Spec Scraper Coverage ValidateFacts ScraperFacts.

Section Custom.

Variables api_key search_id : option string.
Variable customsearch_execute :
  option string → string → option string → Z
  → outcome (option (list (gmap string string))).
Variable requests_get : string → string → outcome http_response.
Variable requests_post : string → string → outcome http_response.
Variable soup_select : string → string → outcome (list node).
Variable soup_find_all_div : string → string → outcome (list node).

(** X22. A non-empty result of the custom search is final: [search]
    returns exactly that list, in its order, whatever the two scraping
    sources would answer. *)
Theorem search_returns_custom_results (query : string) (limit : Z)
    (R : list evidence) :
  truthy api_key && truthy search_id = true →
  _use_google_custom_search api_key search_id customsearch_execute
    query limit = Return R →
  R ≠ [] →
  search api_key search_id customsearch_execute requests_get requests_post
    soup_select soup_find_all_div query limit = Return R.
Proof.
  intros Hkeys HR Hne. rewrite search_eq, Hkeys, HR.
  unfold fallback_cascade. destruct R as [|r R]; [done|].
  cbn [nonempty negb]. by rewrite !bind_return.
Qed.

(** X23. When the custom search returns no record, the size bound on the
    result of [search] needs no assumption on the service: the result has
    between 1 and [limit] records, or is the placeholder sequence. *)
Theorem search_bound_after_empty_custom_search (query : string)
    (limit : Z) (E : list evidence) :
  truthy api_key && truthy search_id = true →
  _use_google_custom_search api_key search_id customsearch_execute
    query limit = Return [] →
  search api_key search_id customsearch_execute requests_get requests_post
    soup_select soup_find_all_div query limit = Return E →
  (1 ≤ Z.of_nat (length E) ≤ limit)%Z
  ∨ E = _get_fallback_results query.
Proof.
  intros Hkeys HR. rewrite search_eq, Hkeys, HR.
  destruct (cascade_result requests_get requests_post soup_select
              soup_find_all_div query limit []) as (E' & -> & HE').
  { cbn [length]. lia. }
  intros H. by assert (E = E') as -> by congruence.
Qed.

End Custom.

(** X22 on the service with two results, for a limit of 5. *)
Lemma search_returns_custom_results_witness :
  ∃ R, _use_google_custom_search (Some "key") (Some "cx") two_items
         diamond_claim 5 = Return R
       ∧ length R = 2
       ∧ search (Some "key") (Some "cx") two_items (http_status 200)
           no_network (parser_finds three_blocks) no_network
           diamond_claim 5 = Return R.
Proof.
  exists ((λ item : gmap string string,
             record (item !! "title") (item !! "link") (item !! "snippet"))
          <$> [ {[ "title" := "A"; "link" := "https://a.example";
                   "snippet" := "first" ]};
                {[ "title" := "B"; "link" := "https://b.example" ]} ]).
  split; [reflexivity|]. split; [reflexivity|].
  apply (search_returns_custom_results (Some "key") (Some "cx") two_items
           (http_status 200) no_network (parser_finds three_blocks)
           no_network diamond_claim 5); [reflexivity | reflexivity | done].
Defined.

(** X23 on the service without items and a limit of 1: the Google page
    has two qualifying blocks, one is returned. *)
Lemma search_bound_after_empty_custom_search_witness :
  search (Some "key") (Some "cx") no_items (http_status 200) no_network
    (parser_finds three_blocks) no_network diamond_claim 1
  = Return (take 1 (omap (google_record diamond_claim) three_blocks))
  ∧ ((1 ≤ Z.of_nat
            (length (take 1 (omap (google_record diamond_claim)
                               three_blocks))) ≤ 1)%Z
     ∨ take 1 (omap (google_record diamond_claim) three_blocks)
       = _get_fallback_results diamond_claim).
Proof.
  split; [reflexivity|].
  apply (search_bound_after_empty_custom_search (Some "key") (Some "cx")
           no_items (http_status 200) no_network
           (parser_finds three_blocks) no_network diamond_claim 1);
    reflexivity.
Defined.

End CustomSearchFacts.
